(** * S.S.O. Control Plane: audit ledger, policy gate and change requests

    A shallow embedding of the enforcement core of the control plane
    (backend/app/db/models and backend/app/api) together with the
    properties its specification states about it.

    Layout: the Python primitives the code leans on (truthiness, [==],
    [json.dumps], [hashlib.sha256], [datetime], [uuid.UUID]) come first, then
    one module per source file, then the theorems. *)

From Stdlib Require Import ZArith List String Ascii Bool Lia.
From Stdlib Require Import Sorting.Sorted Sorting.Permutation.
From Stdlib Require Import Numbers.DecimalString.
From stdpp Require Import gmap.
Import ListNotations.

#[local] Set Warnings "-register-all".
Local Open Scope string_scope.
Local Open Scope Z_scope.

(** ** Python values *)

(** Python [str] is modelled by [string]; each character stands for the code
    point of the same number (0..255). *)

Module Py.

(** The values that travel through a JSONB column or a request body. A
    [dict] keeps its items in insertion order, as Python does. Floats are
    left out. *)
Inductive json : Type :=
| JNull
| JBool (b : bool)
| JInt (n : Z)
| JStr (s : string)
| JList (items : list json)
| JDict (items : list (string * json)).

Abbreviation dict := (list (string * json)).

(** [bool(v)] *)
Definition truthy (v : json) : bool :=
  match v with
  | JNull => false
  | JBool b => b
  | JInt n => negb (n =? 0)
  | JStr s => negb (String.eqb s "")
  | JList l => match l with [] => false | _ => true end
  | JDict d => match d with [] => false | _ => true end
  end.

(** [bool(v)] for a nullable column or an optional argument. *)
Definition truthy_opt {A} (t : A -> bool) (o : option A) : bool :=
  match o with None => false | Some a => t a end.

Definition str_truthy (s : string) : bool := negb (String.eqb s "").

(** [x or y] on optional strings: [x] when it is truthy, else [y]. *)
Definition or_else (x y : option string) : option string :=
  if truthy_opt str_truthy x then x else y.

(** [d.get(key)] without the [None] default folded in. *)
Fixpoint lookup (key : string) (d : dict) : option json :=
  match d with
  | [] => None
  | (k, v) :: rest => if String.eqb k key then Some v else lookup key rest
  end.

(** [d.get(key)]: a missing key yields [None]. *)
Definition get (d : dict) (key : string) : json :=
  match lookup key d with Some v => v | None => JNull end.

Definition int_of_bool (b : bool) : Z := if b then 1 else 0.

(** [a == b]. [bool] is a subclass of [int], so [True == 1]; two dicts are
    equal when they have the same number of items and every item of the
    first is found, with an equal value, in the second. *)
Fixpoint eq (a b : json) {struct a} : bool :=
  match a, b with
  | JNull, JNull => true
  | JBool x, JBool y => Bool.eqb x y
  | JBool x, JInt n => int_of_bool x =? n
  | JInt n, JBool y => n =? int_of_bool y
  | JInt n, JInt m => n =? m
  | JStr s, JStr t => String.eqb s t
  | JList xs, JList ys =>
      (fix eq_list (xs ys : list json) {struct xs} : bool :=
         match xs, ys with
         | [], [] => true
         | x :: xs', y :: ys' => eq x y && eq_list xs' ys'
         | _, _ => false
         end) xs ys
  | JDict xs, JDict ys =>
      (length xs =? length ys)%nat &&
      (fix eq_items (xs : dict) {struct xs} : bool :=
         match xs with
         | [] => true
         | (k, v) :: xs' =>
             match lookup k ys with
             | Some w => eq v w && eq_items xs'
             | None => false
             end
         end) xs
  | _, _ => false
  end.

Definition ne (a b : json) : bool := negb (eq a b).

(** A value as Python can hold it: no dict, at any depth, has a key twice. *)
Fixpoint well_formed (v : json) : Prop :=
  match v with
  | JList items =>
      (fix each (l : list json) : Prop :=
         match l with
         | [] => True
         | x :: l' => well_formed x /\ each l'
         end) items
  | JDict items =>
      List.NoDup (map fst items)
      /\ (fix each (l : dict) : Prop :=
            match l with
            | [] => True
            | (_, x) :: l' => well_formed x /\ each l'
            end) items
  | _ => True
  end.

End Py.

(** ** Text helpers: hexadecimal, decimal, padding *)

Module Text.

Definition hex_digit (d : Z) : ascii :=
  if d <? 10 then ascii_of_N (Z.to_N (48 + d)) else ascii_of_N (Z.to_N (87 + d)).

(** The [width] low hexadecimal digits of [n], most significant first:
    ['%0<width>x' % n] for [0 <= n < 16^width]. *)
Fixpoint hex_fixed (width : nat) (n : Z) : string :=
  match width with
  | O => ""
  | S w => String (hex_digit (Z.shiftr n (4 * Z.of_nat w) mod 16)) (hex_fixed w n)
  end.

(** [str(n)] for an integer. *)
Definition decimal (n : Z) : string := NilZero.string_of_int (Z.to_int n).

Fixpoint zeros (k : nat) : string :=
  match k with O => "" | S k' => String "0" (zeros k') end.

(** ['%0<width>d' % n] for [n >= 0]. *)
Definition decimal_padded (width : nat) (n : Z) : string :=
  let s := decimal n in
  String.append (zeros (width - String.length s)) s.

Definition is_hex (c : ascii) : bool :=
  let n := Z.of_N (N_of_ascii c) in
  ((48 <=? n) && (n <=? 57)) || ((97 <=? n) && (n <=? 102)).

Fixpoint all_chars (p : ascii -> bool) (s : string) : bool :=
  match s with
  | EmptyString => true
  | String c rest => p c && all_chars p rest
  end.

(** [sep.join(parts)] *)
Definition join (sep : string) (parts : list string) : string :=
  String.concat sep parts.

End Text.

(** ** [hashlib.sha256]

    FIPS 180-4 SHA-256 on 32-bit words held in [Z], every addition reduced
    modulo 2^32. *)

Module SHA256.

Definition mask32 (x : Z) : Z := x mod 2 ^ 32.
Definition add32 (x y : Z) : Z := mask32 (x + y).
Definition rotr (n x : Z) : Z :=
  Z.lor (Z.shiftr x n) (mask32 (Z.shiftl x (32 - n))).
Definition not32 (x : Z) : Z := Z.lxor x (2 ^ 32 - 1).

Definition Ch (x y z : Z) : Z := Z.lxor (Z.land x y) (Z.land (not32 x) z).
Definition Maj (x y z : Z) : Z :=
  Z.lxor (Z.lxor (Z.land x y) (Z.land x z)) (Z.land y z).
Definition bsig0 (x : Z) : Z := Z.lxor (Z.lxor (rotr 2 x) (rotr 13 x)) (rotr 22 x).
Definition bsig1 (x : Z) : Z := Z.lxor (Z.lxor (rotr 6 x) (rotr 11 x)) (rotr 25 x).
Definition ssig0 (x : Z) : Z := Z.lxor (Z.lxor (rotr 7 x) (rotr 18 x)) (Z.shiftr x 3).
Definition ssig1 (x : Z) : Z := Z.lxor (Z.lxor (rotr 17 x) (rotr 19 x)) (Z.shiftr x 10).

(** The constants are derived as FIPS 180-4 defines them: the first 32 bits
    of the fractional part of the cube root (round constants) and of the
    square root (initial digest) of the first primes. *)
Definition first_primes : list Z :=
  [2; 3; 5; 7; 11; 13; 17; 19; 23; 29; 31; 37; 41; 43; 47; 53; 59; 61; 67; 71;
   73; 79; 83; 89; 97; 101; 103; 107; 109; 113; 127; 131; 137; 139; 149; 151;
   157; 163; 167; 173; 179; 181; 191; 193; 197; 199; 211; 223; 227; 229; 233;
   239; 241; 251; 257; 263; 269; 271; 277; 281; 283; 293; 307; 311].

(** The integer cube root, found bit by bit from bit [bits - 1] down. *)
Fixpoint cube_root_from (bits : nat) (n acc : Z) : Z :=
  match bits with
  | O => acc
  | S b =>
      let candidate := acc + 2 ^ Z.of_nat b in
      cube_root_from b n (if candidate * candidate * candidate <=? n then candidate else acc)
  end.

Definition cube_root (n : Z) : Z := cube_root_from 36 n 0.

Definition fraction_of_cube_root (p : Z) : Z := cube_root (p * 2 ^ 96) mod 2 ^ 32.
Definition fraction_of_square_root (p : Z) : Z := Z.sqrt (p * 2 ^ 64) mod 2 ^ 32.

Definition round_constants : list Z :=
  Eval vm_compute in map fraction_of_cube_root first_primes.

(** The eight working words a..h, also the running digest. *)
Record state : Type := State {
  wa : Z; wb : Z; wc : Z; wd : Z; we : Z; wf : Z; wg : Z; wh : Z
}.

Definition initial : state :=
  Eval vm_compute in
    State (fraction_of_square_root 2) (fraction_of_square_root 3)
          (fraction_of_square_root 5) (fraction_of_square_root 7)
          (fraction_of_square_root 11) (fraction_of_square_root 13)
          (fraction_of_square_root 17) (fraction_of_square_root 19).

(** Padding: one 0x80 byte, zero bytes up to 56 modulo 64, then the bit
    length as a 64-bit big-endian integer. *)
Fixpoint big_endian (width : nat) (n : Z) : list Z :=
  match width with
  | O => []
  | S w => (Z.shiftr n (8 * Z.of_nat w) mod 256) :: big_endian w n
  end.

Definition pad (msg : list Z) : list Z :=
  let len := Z.of_nat (length msg) in
  let fill := Z.to_nat ((55 - len) mod 64) in
  msg ++ [0x80] ++ repeat 0 fill ++ big_endian 8 (8 * len).

(** Bytes to big-endian 32-bit words; a trailing group of fewer than four
    bytes cannot occur after padding and is dropped. *)
Fixpoint words (bytes : list Z) : list Z :=
  match bytes with
  | b0 :: b1 :: b2 :: b3 :: rest =>
      (((b0 * 256 + b1) * 256 + b2) * 256 + b3) :: words rest
  | _ => []
  end.

(** Sixteen-word blocks, with [fuel] bounding the number of blocks. *)
Fixpoint blocks (fuel : nat) (ws : list Z) : list (list Z) :=
  match fuel, ws with
  | S f, _ :: _ => firstn 16 ws :: blocks f (skipn 16 ws)
  | _, _ => []
  end.

(** The message schedule kept newest word first: the head is W[t-1]. *)
Definition next_word (recent : list Z) : Z :=
  add32 (add32 (ssig1 (nth 1 recent 0)) (nth 6 recent 0))
        (add32 (ssig0 (nth 14 recent 0)) (nth 15 recent 0)).

Fixpoint extend (k : nat) (recent : list Z) : list Z :=
  match k with
  | O => recent
  | S k' => extend k' (next_word recent :: recent)
  end.

Definition schedule (block : list Z) : list Z := rev (extend 48 (rev block)).

Definition round (s : state) (kw : Z * Z) : state :=
  let '(k, w) := kw in
  let t1 := add32 (add32 (add32 (wh s) (bsig1 (we s))) (Ch (we s) (wf s) (wg s)))
                  (add32 k w) in
  let t2 := add32 (bsig0 (wa s)) (Maj (wa s) (wb s) (wc s)) in
  State (add32 t1 t2) (wa s) (wb s) (wc s) (add32 (wd s) t1) (we s) (wf s) (wg s).

Definition compress (h : state) (block : list Z) : state :=
  let s := fold_left round (combine round_constants (schedule block)) h in
  State (add32 (wa h) (wa s)) (add32 (wb h) (wb s))
        (add32 (wc h) (wc s)) (add32 (wd h) (wd s))
        (add32 (we h) (we s)) (add32 (wf h) (wf s))
        (add32 (wg h) (wg s)) (add32 (wh h) (wh s)).

Definition digest_state (msg : list Z) : state :=
  let ws := words (pad msg) in
  fold_left compress (blocks (length ws) ws) initial.

(** [.hexdigest()]: the eight words, eight lowercase hex digits each. *)
Definition hex_of_state (s : state) : string :=
  String.concat ""
    (map (Text.hex_fixed 8)
         [wa s; wb s; wc s; wd s; we s; wf s; wg s; wh s]).

Definition hexdigest (msg : list Z) : string := hex_of_state (digest_state msg).

End SHA256.

(** ** [str.encode('utf-8')] *)

Module Utf8.

Definition encode_char (c : ascii) : list Z :=
  let n := Z.of_N (N_of_ascii c) in
  if n <? 128 then [n]
  else [Z.lor 0xC0 (Z.shiftr n 6); Z.lor 0x80 (Z.land n 0x3F)].

Fixpoint encode (s : string) : list Z :=
  match s with
  | EmptyString => []
  | String c rest => encode_char c ++ encode rest
  end.

End Utf8.

(** ** [sorted]: a stable sort

    [sort leb l] keeps elements that [leb] ranks equal in the order they have
    in [l], which is what Python's [sorted] does. *)

Module Sort.
Section Insertion.
Context {A : Type} (leb : A -> A -> bool).

Fixpoint insert (x : A) (l : list A) : list A :=
  match l with
  | [] => [x]
  | y :: rest => if leb x y then x :: l else y :: insert x rest
  end.

Fixpoint sort (l : list A) : list A :=
  match l with
  | [] => []
  | x :: rest => insert x (sort rest)
  end.
End Insertion.
End Sort.

(** ** [json.dumps(obj, sort_keys=True)]

    Default separators [", "] and [": "], [ensure_ascii=True]. *)

Module Json.
Import Py.

Definition dquote : ascii := "034"%char.
Definition backslash : ascii := "092"%char.

(** One character of [py_encode_basestring_ascii]. *)
Definition escape_char (c : ascii) : string :=
  let n := Z.of_N (N_of_ascii c) in
  if n =? 34 then String backslash (String dquote "")
  else if n =? 92 then String backslash (String backslash "")
  else if n =? 10 then String backslash "n"
  else if n =? 13 then String backslash "r"
  else if n =? 9 then String backslash "t"
  else if n =? 12 then String backslash "f"
  else if n =? 8 then String backslash "b"
  else if (32 <=? n) && (n <=? 126) then String c ""
  else String backslash (String "u" (Text.hex_fixed 4 n)).

Fixpoint escape (s : string) : string :=
  match s with
  | EmptyString => ""
  | String c rest => String.append (escape_char c) (escape rest)
  end.

Definition quote (s : string) : string :=
  String dquote (String.append (escape s) (String dquote "")).

Definition key_leb (a b : string * string) : bool := String.leb (fst a) (fst b).

Definition render_item (kv : string * string) : string :=
  String.append (quote (fst kv)) (String.append ": " (snd kv)).

(** The items of a dict are rendered first and then ordered by key; the
    order only looks at the keys, so this is [sorted(dct.items())]
    followed by the rendering. *)
Fixpoint dumps (v : json) : string :=
  match v with
  | JNull => "null"
  | JBool true => "true"
  | JBool false => "false"
  | JInt n => Text.decimal n
  | JStr s => quote s
  | JList items =>
      let rendered :=
        (fix each (l : list json) : list string :=
           match l with
           | [] => []
           | x :: l' => dumps x :: each l'
           end) items in
      String.append "[" (String.append (Text.join ", " rendered) "]")
  | JDict items =>
      let rendered :=
        (fix each (l : dict) : list (string * string) :=
           match l with
           | [] => []
           | (k, x) :: l' => (k, dumps x) :: each l'
           end) items in
      String.append "{"
        (String.append
           (Text.join ", " (map render_item (Sort.sort key_leb rendered)))
           "}")
  end.

(** The key order as a relation, and the items of a dict with their values
    rendered. *)
Definition key_le (a b : string * string) : Prop := key_leb a b = true.

Definition rendered_items (items : dict) : list (string * string) :=
  map (fun kv => (fst kv, dumps (snd kv))) items.

End Json.

(** ** [uuid.UUID] and [datetime.datetime] *)

Module UUID.

(** A UUID is its 128-bit integer value. *)
Definition t : Type := Z.

Definition eqb (a b : t) : bool := Z.eqb a b.

(** [str(u)]: 8-4-4-4-12 lowercase hexadecimal digits. *)
Definition str (u : t) : string :=
  String.concat "-"
    [ Text.hex_fixed 8 (Z.shiftr u 96); Text.hex_fixed 4 (Z.shiftr u 80);
      Text.hex_fixed 4 (Z.shiftr u 64); Text.hex_fixed 4 (Z.shiftr u 48);
      Text.hex_fixed 12 u ].

End UUID.

Module Datetime.

(** A naive [datetime]. *)
Record t : Type := Make {
  year : Z; month : Z; day : Z;
  hour : Z; minute : Z; second : Z; microsecond : Z
}.

Definition fields (d : t) : list Z :=
  [year d; month d; day d; hour d; minute d; second d; microsecond d].

Fixpoint lex_compare (a b : list Z) : comparison :=
  match a, b with
  | [], [] => Eq
  | [], _ :: _ => Lt
  | _ :: _, [] => Gt
  | x :: a', y :: b' =>
      match x ?= y with
      | Eq => lex_compare a' b'
      | c => c
      end
  end.

(** Naive datetimes compare field by field, most significant first. *)
Definition compare (a b : t) : comparison := lex_compare (fields a) (fields b).

(** [a <= b] *)
Definition leb (a b : t) : bool :=
  match compare a b with Gt => false | _ => true end.

(** [d.isoformat()]: the fraction is printed only when it is not zero. *)
Definition isoformat (d : t) : string :=
  String.concat ""
    [ Text.decimal_padded 4 (year d); "-"; Text.decimal_padded 2 (month d); "-";
      Text.decimal_padded 2 (day d); "T"; Text.decimal_padded 2 (hour d); ":";
      Text.decimal_padded 2 (minute d); ":"; Text.decimal_padded 2 (second d);
      if microsecond d =? 0 then ""
      else String.append "." (Text.decimal_padded 6 (microsecond d)) ].

(** [a > b] *)
Definition gtb (a b : t) : bool :=
  match compare a b with Gt => true | _ => false end.

(** [a >= b] *)
Definition geb (a b : t) : bool := leb b a.

End Datetime.

(** Comparisons of optional values as Python's [==] sees them ([None] equals
    only [None]). *)

Module Opt.

Definition eqb {A} (eq : A -> A -> bool) (x y : option A) : bool :=
  match x, y with
  | None, None => true
  | Some a, Some b => eq a b
  | _, _ => false
  end.

Definition str_eqb : option string -> option string -> bool := eqb String.eqb.
Definition int_eqb : option Z -> option Z -> bool := eqb Z.eqb.

Definition is_none {A} (x : option A) : bool :=
  match x with None => true | Some _ => false end.

(** [f(x) if x is not None else None], as a JSON value. *)
Definition to_json {A} (f : A -> Py.json) (x : option A) : Py.json :=
  match x with None => Py.JNull | Some a => f a end.

End Opt.

(** ** backend/app/db/models/audit_event.py *)

Module AuditEvent.
Import Py.

(** The attributes of an [AuditEvent] object. The ones the database fills
    in at insert ([id], [sequence_number], [created_at]) and the hash are
    [None] on a freshly built object. *)
Record t : Type := Make {
  id : option UUID.t;
  sequence_number : option Z;
  event_type : string;
  action : string;
  actor_id : UUID.t;
  actor_type : string;
  actor_email : option string;
  resource_type : option string;
  resource_id : option UUID.t;
  resource_name : option string;
  context : json;
  outcome : string;
  previous_hash : option string;
  event_hash : option string;
  created_at : option Datetime.t;
  metadata : json
}.

(** The dict [hash_data] of [compute_hash], in the order it is written. *)
Definition hash_data (self : t) (previous_hash_arg : option string) : json :=
  JDict
    [ ("sequence", Opt.to_json JInt (sequence_number self));
      ("event_type", JStr (event_type self));
      ("action", JStr (action self));
      ("actor_id", JStr (UUID.str (actor_id self)));
      ("actor_type", JStr (actor_type self));
      ("resource_type", Opt.to_json JStr (resource_type self));
      ("resource_id", Opt.to_json (fun u => JStr (UUID.str u)) (resource_id self));
      ("outcome", JStr (outcome self));
      ("context", context self);
      ("previous_hash", Opt.to_json JStr (or_else previous_hash_arg (previous_hash self)));
      ("created_at", Opt.to_json (fun d => JStr (Datetime.isoformat d)) (created_at self)) ].

(** [compute_hash(self, previous_hash=None)] *)
Definition compute_hash (self : t) (previous_hash_arg : option string) : string :=
  let hash_string := Json.dumps (hash_data self previous_hash_arg) in
  SHA256.hexdigest (Utf8.encode hash_string).

(** [verify_chain(self, previous_event=None)]. An [AuditEvent] object is
    always truthy, so [if previous_event:] tests for [None]. *)
Definition verify_chain (self : t) (previous_event : option t) : bool :=
  if Opt.int_eqb (sequence_number self) (Some 1) then
    Opt.is_none (previous_hash self)
  else
    let link_broken :=
      match previous_event with
      | Some prev => negb (Opt.str_eqb (previous_hash self) (event_hash prev))
      | None => false
      end in
    if link_broken then false
    else
      let expected_hash := compute_hash self None in
      Opt.str_eqb (event_hash self) (Some expected_hash).

(** [context or {}] *)
Definition or_empty_dict (v : json) : json := if truthy v then v else JDict [].

(** [create_event]: the object is returned without sequence number and
    without hash; both are set after the insert. *)
Definition create_event
    (event_type action : string) (actor_id : UUID.t) (actor_type outcome : string)
    (context : json) (resource_type : option string) (resource_id : option UUID.t)
    (resource_name actor_email : option string) (metadata : option json)
    (previous_hash : option string) : t :=
  {| id := None;
     sequence_number := None;
     event_type := event_type;
     action := action;
     actor_id := actor_id;
     actor_type := actor_type;
     actor_email := actor_email;
     resource_type := resource_type;
     resource_id := resource_id;
     resource_name := resource_name;
     context := or_empty_dict context;
     outcome := outcome;
     previous_hash := previous_hash;
     event_hash := None;
     created_at := None;
     metadata := match metadata with Some m => or_empty_dict m | None => JDict [] end |}.

(** Attribute assignments. *)
Definition set_context (c : json) (e : t) : t :=
  Make (id e) (sequence_number e) (event_type e) (action e) (actor_id e)
       (actor_type e) (actor_email e) (resource_type e) (resource_id e)
       (resource_name e) c (outcome e) (previous_hash e) (event_hash e)
       (created_at e) (metadata e).

Definition set_event_hash (h : option string) (e : t) : t :=
  Make (id e) (sequence_number e) (event_type e) (action e) (actor_id e)
       (actor_type e) (actor_email e) (resource_type e) (resource_id e)
       (resource_name e) (context e) (outcome e) (previous_hash e) h
       (created_at e) (metadata e).

(** What the insert fills in: the next sequence number and the server
    clock's [created_at]. *)
Definition inserted (seq : Z) (now : Datetime.t) (e : t) : t :=
  Make (id e) (Some seq) (event_type e) (action e) (actor_id e)
       (actor_type e) (actor_email e) (resource_type e) (resource_id e)
       (resource_name e) (context e) (outcome e) (previous_hash e) (event_hash e)
       (Some now) (metadata e).

Definition set_previous_hash (h : option string) (e : t) : t :=
  Make (id e) (sequence_number e) (event_type e) (action e) (actor_id e)
       (actor_type e) (actor_email e) (resource_type e) (resource_id e)
       (resource_name e) (context e) (outcome e) h (event_hash e)
       (created_at e) (metadata e).

End AuditEvent.

(** ** The ledger around [AuditEvent] *)

Module Ledger.
Import AuditEvent.

(** The stored chain, oldest event first. *)
Abbreviation ledger := (list AuditEvent.t).

Inductive error : Type := ConflictError | TamperDetected.

Definition tip (l : ledger) : option AuditEvent.t := last l.

Definition tip_hash (l : ledger) : option string :=
  match tip l with Some e => event_hash e | None => None end.

(** One step of the walk: the event stored as number [seq] must carry that
    number (a gap or a duplicate is a mismatch) and pass the model's
    [verify_chain] against its predecessor. *)
Definition event_ok (prev : option AuditEvent.t) (seq : Z) (e : AuditEvent.t) : bool :=
  Opt.int_eqb (sequence_number e) (Some seq) && verify_chain e prev.

Fixpoint walk (prev : option AuditEvent.t) (seq : Z) (events : list AuditEvent.t)
  : option Z :=
  match events with
  | [] => None
  | e :: rest => if event_ok prev seq e then walk (Some e) (seq + 1) rest else Some seq
  end.

(** Modelled from the spec: [VerifyChain(from, to)], which the repository
    does not contain; it walks the events numbered [from..to] in order,
    checks each with [AuditEvent.verify_chain] against the event before it,
    and returns the first mismatched sequence number, or [None] for
    success. *)
Definition VerifyChain (l : ledger) (from to : Z) : option Z :=
  let skip := Z.to_nat (from - 1) in
  let prev := match skip with O => None | S k => nth_error l k end in
  walk prev from (firstn (Z.to_nat (to - from + 1)) (skipn skip l)).

(** Modelled from the spec: [Append(event) -> (sequence, hash)], which the
    repository does not contain ([create_event] stops before the insert).
    The caller's assumed previous hash must be the current tip's hash
    ([ConflictError]), the stored chain must re-verify ([TamperDetected]);
    the event then gets the next sequence number and the hash that
    [compute_hash] gives for it. *)
Definition Append (l : ledger) (event : AuditEvent.t) (now : Datetime.t)
  : error + (ledger * Z * string) :=
  if negb (Opt.str_eqb (previous_hash event) (tip_hash l)) then inl ConflictError
  else
    match VerifyChain l 1 (Z.of_nat (length l)) with
    | Some _ => inl TamperDetected
    | None =>
        let seq := Z.of_nat (length l) + 1 in
        let stored := inserted seq now event in
        let h := compute_hash stored None in
        inr ((l ++ [set_event_hash (Some h) stored])%list, seq, h)
    end.

(** A run of appends from the empty ledger. *)
Fixpoint replay_from (l : ledger) (events : list (AuditEvent.t * Datetime.t))
  : error + ledger :=
  match events with
  | [] => inr l
  | (e, now) :: rest =>
      match Append l e now with
      | inl err => inl err
      | inr (l', _, _) => replay_from l' rest
      end
  end.

Definition replay := replay_from [].

(** The stored chain is linked: event number [n+1] sits at index [n], its
    hash is the one [compute_hash] gives, and its previous hash is the hash
    of the event before it ([None] for the first). *)
Definition linked (l : ledger) : Prop :=
  forall (n : nat) (e : AuditEvent.t),
    l !! n = Some e ->
    sequence_number e = Some (Z.of_nat n + 1)
    /\ event_hash e = Some (compute_hash e None)
    /\ match n with
       | O => previous_hash e = None
       | S m => exists p, l !! m = Some p /\ previous_hash e = event_hash p
       end.

(** The ledger after an edit of the stored context of event number [seq]. *)
Fixpoint tamper_context (seq : nat) (c : Py.json) (l : ledger) : ledger :=
  match l, seq with
  | [], _ => []
  | e :: rest, 1%nat => set_context c e :: rest
  | e :: rest, O => e :: rest
  | e :: rest, S k => e :: tamper_context k c rest
  end.

End Ledger.

(** ** Results of code that can raise *)

Inductive result (E A : Type) : Type :=
| Ok (value : A)
| Raise (exc : E).
Arguments Ok {E A} value.
Arguments Raise {E A} exc.

(** ** backend/app/db/models/control_policy.py *)

Module ControlPolicy.
Import Py.

Inductive PolicyAction : Type :=
| ACTION_ALLOW | ACTION_DENY | REQUIRE_APPROVAL | ACTION_DEGRADE.

(** The router and the seed script read the policy's verdict as
    [outcome], of an enumeration [PolicyOutcome] whose declaration is not in
    the model file; its members are the three the router documents. *)
Inductive PolicyOutcome : Type := ALLOW | DENY | REVIEW.

Definition outcome_eqb (a b : PolicyOutcome) : bool :=
  match a, b with
  | ALLOW, ALLOW | DENY, DENY | REVIEW, REVIEW => true
  | _, _ => false
  end.

(** The columns the code below reads, each under the name its reader
    uses. [conditions] and [auto_deny_conditions] are nullable JSONB. *)
Record t : Type := Make {
  id : UUID.t;
  policy_key : string;
  workflow_id : option UUID.t;
  name : string;
  description : option string;
  policy_action : PolicyAction;
  outcome : PolicyOutcome;
  conditions : option json;
  auto_deny_conditions : option json;
  priority : Z;
  is_active : bool
}.

Definition requires_approval (self : t) : bool :=
  match policy_action self with REQUIRE_APPROVAL => true | _ => false end.

Definition is_blocking (self : t) : bool :=
  match policy_action self with
  | ACTION_DENY | REQUIRE_APPROVAL => true
  | _ => false
  end.

Inductive exc : Type := AttributeError.

(** [v.items()]: only a dict has it. *)
Definition items (v : option json) : result exc dict :=
  match v with
  | Some (JDict d) => Ok d
  | _ => Raise AttributeError
  end.

(** [for key, expected_value in ...: if context.get(key) == expected_value:
    return True] *)
Fixpoint auto_deny_triggered (context : dict) (entries : dict) : bool :=
  match entries with
  | [] => false
  | (key, expected_value) :: rest =>
      if Py.eq (get context key) expected_value then true
      else auto_deny_triggered context rest
  end.

(** [for key, expected_value in ...: if context.get(key) != expected_value:
    return False] and then [return True] *)
Fixpoint conditions_hold (context : dict) (entries : dict) : bool :=
  match entries with
  | [] => true
  | (key, expected_value) :: rest =>
      if Py.ne (get context key) expected_value then false
      else conditions_hold context rest
  end.

(** [evaluate_conditions(self, context)] *)
Definition evaluate_conditions (self : t) (context : dict) : result exc bool :=
  if negb (truthy_opt truthy (conditions self)) then Ok true
  else
    let auto_deny :=
      if truthy_opt truthy (auto_deny_conditions self) then
        match items (auto_deny_conditions self) with
        | Ok entries => Ok (auto_deny_triggered context entries)
        | Raise e => Raise e
        end
      else Ok false in
    match auto_deny with
    | Raise e => Raise e
    | Ok true => Ok true
    | Ok false =>
        match items (conditions self) with
        | Ok entries => Ok (conditions_hold context entries)
        | Raise e => Raise e
        end
    end.

(** The auto-deny entries [evaluate_conditions] iterates over: those of the
    dict in the column, none when the column is falsy. *)
Definition auto_deny_entries (p : t) (entries : dict) : Prop :=
  auto_deny_conditions p = Some (JDict entries)
  \/ (truthy_opt truthy (auto_deny_conditions p) = false /\ entries = []).

End ControlPolicy.

(** ** backend/app/api/control_policies.py *)

Module ControlPoliciesApi.
Import ControlPolicy.

Section Listing.
(** PostgreSQL's [column ILIKE pattern]. *)
Variable ilike : string -> string -> bool.






End Listing.

(** [HTTPException(status_code, detail)] as the policy router raises it. *)
Record HTTPException : Type := MakeHTTPException {
  status_code : Z;
  detail : string
}.

Definition not_found (policy_id : UUID.t) : HTTPException :=
  MakeHTTPException 404
    (String.append "Control policy " (String.append (UUID.str policy_id) " not found")).

(** [select(ControlPolicy).where(ControlPolicy.id == policy_id)] followed by
    [.scalars().first()] *)
Definition select_first (rows : list t) (policy_id : UUID.t) : option t :=
  List.find (fun p => UUID.eqb (id p) policy_id) rows.





End ControlPoliciesApi.

(** ** backend/app/db/models/kill_switch.py *)

Module KillSwitch.

Inductive KillSwitchMode : Type := HARD_STOP | SOFT_STOP | READ_ONLY | DEGRADE.

Inductive KillSwitchTrigger : Type :=
| MANUAL | INCIDENT | SECURITY | COMPLIANCE | AUTOMATED | DATA_ANOMALY.

Definition mode_eqb (a b : KillSwitchMode) : bool :=
  match a, b with
  | HARD_STOP, HARD_STOP | SOFT_STOP, SOFT_STOP
  | READ_ONLY, READ_ONLY | DEGRADE, DEGRADE => true
  | _, _ => false
  end.

Record t : Type := Make {
  id : UUID.t;
  switch_key : string;
  workflow_id : option UUID.t;
  name : string;
  mode : KillSwitchMode;
  trigger : KillSwitchTrigger;
  is_active : bool;
  auto_deactivate_at : option Datetime.t;
  reason : string
}.

(** [is_global]: no workflow means every workflow. *)
Definition is_global (self : t) : bool := Opt.is_none (workflow_id self).

(** [blocks_writes] *)
Definition blocks_writes (self : t) : bool :=
  match mode self with
  | HARD_STOP | SOFT_STOP | READ_ONLY => true
  | DEGRADE => false
  end.

(** [should_auto_deactivate], with [datetime.utcnow()] as [now]. *)
Definition should_auto_deactivate (self : t) (now : Datetime.t) : bool :=
  match is_active self, auto_deactivate_at self with
  | true, Some at_ => Datetime.leb at_ now
  | _, _ => false
  end.

End KillSwitch.

(** ** backend/app/db/models/enforcement_gate.py *)

Module EnforcementGate.

Inductive GateType : Type :=
| PRE_EXECUTION | POST_EXECUTION | CAPABILITY_REQUEST | PRODUCTION_CHANGE
| DATA_ACCESS | MODEL_DEPLOYMENT | BREAK_GLASS_ENTRY.

Inductive GateOutcome : Type := ALLOW | BLOCK | WARNING | HARD_STOP | DEGRADE.

Record t : Type := Make {
  id : UUID.t;
  gate_key : string;
  gate_type : GateType;
  workflow_id : option UUID.t;
  capability_id : option UUID.t;
  control_policy_ids : list UUID.t;
  enforcement_mode : string;
  require_all_pass : bool;
  check_kill_switches : bool;
  is_active : bool
}.

(** One entry of [GateExecution.controls_evaluated]. *)
Inductive ControlResult : Type := PASS | FAIL | ERROR.

Record ControlEvaluation : Type := MakeEvaluation {
  policy_id : UUID.t;
  policy_name : string;
  policy_outcome : ControlPolicy.PolicyOutcome;
  applied : bool;
  control_result : ControlResult
}.

Record GateExecution : Type := MakeExecution {
  gate_id : UUID.t;
  execution_gate_key : string;
  actor_id : UUID.t;
  outcome : GateOutcome;
  controls_evaluated : list ControlEvaluation;
  kill_switches_checked : list UUID.t;
  audit_event_type : string
}.

End EnforcementGate.

(** ** The gate evaluator *)

Module GateEvaluator.
Import EnforcementGate.

(** Modelled from the spec: the Policy Source's [ActiveKillSwitches(scope)];
    the repository has no evaluator, only the models it would read. A
    switch is in scope when it is global or names the gate's workflow (the
    model's [KillSwitch] has no capability column). *)
Definition in_scope (gate : EnforcementGate.t) (ks : KillSwitch.t) : bool :=
  KillSwitch.is_global ks
  || Opt.eqb UUID.eqb (KillSwitch.workflow_id ks) (workflow_id gate).

Definition ActiveKillSwitches (gate : EnforcementGate.t) (switches : list KillSwitch.t)
  : list KillSwitch.t :=
  List.filter (fun ks => KillSwitch.is_active ks && in_scope gate ks) switches.

(** Ascending priority, ties in ascending identifier. *)
Definition policy_leb (p q : ControlPolicy.t) : bool :=
  (ControlPolicy.priority p <? ControlPolicy.priority q)
  || (ControlPolicy.priority p =? ControlPolicy.priority q)
     && (ControlPolicy.id p <=? ControlPolicy.id q).

(** Modelled from the spec: the gate's ordered policy list, the active
    policies the gate names, "sorted by ascending priority (lower number
    evaluated first; ties broken by policy identifier)". *)
Definition ActivePolicies (gate : EnforcementGate.t) (policies : list ControlPolicy.t)
  : list ControlPolicy.t :=
  Sort.sort policy_leb
    (List.filter (fun p => ControlPolicy.is_active p
                      && existsb (UUID.eqb (ControlPolicy.id p)) (control_policy_ids gate))
            policies).

(** The individual result of one policy: a policy that does not apply, or
    applies and allows, passes; one that applies and denies or asks for
    review fails; a malformed condition is an error. *)
Definition evaluate_policy (context : Py.dict) (p : ControlPolicy.t) : ControlEvaluation :=
  let entry := MakeEvaluation (ControlPolicy.id p) (ControlPolicy.name p)
                              (ControlPolicy.outcome p) in
  match ControlPolicy.evaluate_conditions p context with
  | Raise _ => entry false ERROR
  | Ok false => entry false PASS
  | Ok true =>
      match ControlPolicy.outcome p with
      | ControlPolicy.ALLOW => entry true PASS
      | _ => entry true FAIL
      end
  end.

Definition applied_with (o : ControlPolicy.PolicyOutcome) (r : ControlEvaluation) : bool :=
  applied r && ControlPolicy.outcome_eqb (policy_outcome r) o.

Definition is_error (r : ControlEvaluation) : bool :=
  match control_result r with ERROR => true | _ => false end.

(** Modelled from the spec: step 3. Under [require_all_pass] a deny gives
    [BLOCK] and a review gives [WARNING]; otherwise the most permissive
    result of an applying policy wins. *)
Definition aggregate (gate : EnforcementGate.t) (results : list ControlEvaluation)
  : GateOutcome :=
  let any o := existsb (applied_with o) results in
  if require_all_pass gate then
    if any ControlPolicy.DENY then BLOCK
    else if any ControlPolicy.REVIEW then WARNING
    else ALLOW
  else
    if any ControlPolicy.ALLOW then ALLOW
    else if any ControlPolicy.REVIEW then WARNING
    else if any ControlPolicy.DENY then BLOCK
    else ALLOW.

(** A policy error never ends in [ALLOW]: [BLOCK] under blocking
    enforcement, at least [WARNING] under monitoring. *)
Definition with_errors (gate : EnforcementGate.t) (results : list ControlEvaluation)
    (o : GateOutcome) : GateOutcome :=
  if existsb is_error results then
    if String.eqb (enforcement_mode gate) "BLOCKING" then BLOCK
    else match o with ALLOW => WARNING | _ => o end
  else o.

Definition resolve (gate : EnforcementGate.t) (results : list ControlEvaluation)
  : GateOutcome :=
  with_errors gate results (aggregate gate results).

Definition event_type_of (o : GateOutcome) : string :=
  match o with
  | BLOCK | HARD_STOP => "GATE_BLOCKED"
  | _ => "GATE_EXECUTED"
  end.

Definition record (gate : EnforcementGate.t) (actor : UUID.t) (o : GateOutcome)
    (results : list ControlEvaluation) (checked : list KillSwitch.t) : GateExecution :=
  MakeExecution (id gate) (gate_key gate) actor o results
                (map KillSwitch.id checked) (event_type_of o).

(** Modelled from the spec: [Evaluate(gateKey, actor, context)], section
    4.2, steps 1 to 4. [switches] and [policies] are the Policy Source's
    tables, [is_write] tells whether the requested operation writes. *)
Definition Evaluate (gate : EnforcementGate.t) (switches : list KillSwitch.t)
    (policies : list ControlPolicy.t) (actor : UUID.t) (context : Py.dict)
    (is_write : bool) : GateExecution :=
  let checked :=
    if check_kill_switches gate then ActiveKillSwitches gate switches else [] in
  if existsb (fun ks => KillSwitch.mode_eqb (KillSwitch.mode ks) KillSwitch.HARD_STOP)
             checked then
    record gate actor HARD_STOP [] checked
  else if is_write && existsb KillSwitch.blocks_writes checked then
    record gate actor BLOCK [] checked
  else
    let results := map (evaluate_policy context) (ActivePolicies gate policies) in
    let degraded :=
      existsb (fun ks => KillSwitch.mode_eqb (KillSwitch.mode ks) KillSwitch.DEGRADE)
              checked in
    let o := if degraded then DEGRADE else resolve gate results in
    record gate actor o results checked.

End GateEvaluator.

(** ** backend/app/db/models/change_request.py *)

Module ChangeRequest.

(** [ChangeStatus]. The router imports the enumeration under the name
    [ChangeRequestStatus] and also uses the members [IMPLEMENTED] and
    [VALIDATED], which are listed last. *)
Inductive ChangeStatus : Type :=
| DRAFT | SUBMITTED | UNDER_REVIEW | PENDING_APPROVAL | APPROVED | SCHEDULED
| IN_PROGRESS | COMPLETED | FAILED | ROLLED_BACK | REJECTED | CANCELLED
| IMPLEMENTED | VALIDATED.

Inductive ChangeRiskLevel : Type := LOW | MEDIUM | HIGH | CRITICAL.

Definition status_eqb (a b : ChangeStatus) : bool :=
  match a, b with
  | DRAFT, DRAFT | SUBMITTED, SUBMITTED | UNDER_REVIEW, UNDER_REVIEW
  | PENDING_APPROVAL, PENDING_APPROVAL | APPROVED, APPROVED
  | SCHEDULED, SCHEDULED | IN_PROGRESS, IN_PROGRESS | COMPLETED, COMPLETED
  | FAILED, FAILED | ROLLED_BACK, ROLLED_BACK | REJECTED, REJECTED
  | CANCELLED, CANCELLED | IMPLEMENTED, IMPLEMENTED | VALIDATED, VALIDATED => true
  | _, _ => false
  end.


(** The attributes of a [ChangeRequest] object that the model's methods
    and the router read or assign, each under the name its reader uses
    (the router says [justification] and [rollback_plan] where the model
    declares [rationale] and [rollback_procedure]). The primary key [id] is
    the key of the table. *)
Record t : Type := Make {
  change_key : string;
  risk_level : option ChangeRiskLevel;
  title : string;
  description : option string;
  justification : option string;
  rollback_plan : option Py.json;
  status : ChangeStatus;
  submitted_at : option Datetime.t;
  approved_at : option Datetime.t;
  approved_by : Py.json;
  approval_notes : Py.json;
  rejection_reason : Py.json;
  rejected_by : Py.json;
  implemented_at : option Datetime.t;
  implemented_by : Py.json;
  implementation_notes : Py.json;
  scheduled_start : option Datetime.t;
  scheduled_end : option Datetime.t
}.

(** [is_within_execution_window], with [datetime.utcnow()] as [now]. A
    datetime is always truthy, so [not self.scheduled_start] tests for
    [None]. *)
Definition is_within_execution_window (self : t) (now : Datetime.t) : bool :=
  match scheduled_start self, scheduled_end self with
  | Some start_, Some end_ => Datetime.leb start_ now && Datetime.leb now end_
  | _, _ => false
  end.



End ChangeRequest.

(** ** backend/app/api/change_requests.py *)

Module ChangeRequestsApi.
Import ChangeRequest.

(** [HTTPException(status_code, detail)] *)
Record HTTPException : Type := MakeHTTPException {
  status_code : Z;
  detail : string
}.

Definition HTTP_400_BAD_REQUEST : Z := 400.
Definition HTTP_404_NOT_FOUND : Z := 404.

(** The [change_requests] table by primary key [id]. *)
Abbreviation table := (gmap Z ChangeRequest.t).

(** A handler runs against the session and either raises, leaving the table
    as it was, or commits and returns. *)
Definition handler (A : Type) : Type := table -> table * result HTTPException A.

Definition ret {A} (a : A) : handler A := fun db => (db, Ok a).
Definition raise {A} (e : HTTPException) : handler A := fun db => (db, Raise e).
Definition bind {A B} (m : handler A) (k : A -> handler B) : handler B :=
  fun db =>
    match m db with
    | (db', Ok a) => k a db'
    | (db', Raise e) => (db', Raise e)
    end.

Declare Scope handler_scope.
Delimit Scope handler_scope with handler.
Notation "'let*' x ':=' m 'in' k" := (bind m (fun x => k))
  (at level 10, x name, m at level 100, k at level 200) : handler_scope.
Local Open Scope handler_scope.

(** [select(ChangeRequest).where(ChangeRequest.id == request_id)] followed
    by [.scalars().first()] *)
Definition select_first (request_id : UUID.t) : handler (option ChangeRequest.t) :=
  fun db => (db, Ok (db !! request_id)).

(** [db.commit()] after attribute assignments on the object loaded for
    [request_id]: its row is rewritten. *)
Definition commit (request_id : UUID.t) (cr : ChangeRequest.t) : handler unit :=
  fun db => (<[request_id := cr]> db, Ok tt).

Definition not_found {A} (request_id : UUID.t) : handler A :=
  raise (MakeHTTPException HTTP_404_NOT_FOUND
           (String.append "Change request "
              (String.append (UUID.str request_id) " not found"))).

Definition bad_request {A} (msg : string) : handler A :=
  raise (MakeHTTPException HTTP_400_BAD_REQUEST msg).

(** Attribute assignments of the handlers. *)
Definition assign_submitted (now : Datetime.t) (c : t) : t :=
  Make (change_key c) (risk_level c) (title c) (description c)
       (justification c) (rollback_plan c) PENDING_APPROVAL (Some now)
       (approved_at c) (approved_by c) (approval_notes c) (rejection_reason c)
       (rejected_by c) (implemented_at c) (implemented_by c)
       (implementation_notes c) (scheduled_start c) (scheduled_end c).

Definition assign_approved (now : Datetime.t) (by_ notes : Py.json) (c : t) : t :=
  Make (change_key c) (risk_level c) (title c) (description c)
       (justification c) (rollback_plan c) APPROVED (submitted_at c)
       (Some now) by_ notes (rejection_reason c)
       (rejected_by c) (implemented_at c) (implemented_by c)
       (implementation_notes c) (scheduled_start c) (scheduled_end c).

Definition assign_rejected (reason by_ : Py.json) (c : t) : t :=
  Make (change_key c) (risk_level c) (title c) (description c)
       (justification c) (rollback_plan c) REJECTED (submitted_at c)
       (approved_at c) (approved_by c) (approval_notes c) reason
       by_ (implemented_at c) (implemented_by c)
       (implementation_notes c) (scheduled_start c) (scheduled_end c).

Definition assign_implemented (now : Datetime.t) (by_ notes : Py.json) (c : t) : t :=
  Make (change_key c) (risk_level c) (title c) (description c)
       (justification c) (rollback_plan c) IMPLEMENTED (submitted_at c)
       (approved_at c) (approved_by c) (approval_notes c) (rejection_reason c)
       (rejected_by c) (Some now) by_ notes (scheduled_start c) (scheduled_end c).

(** [all([description, justification, risk_level, rollback_plan])]; a
    member of the string-valued risk enumeration is never falsy. *)
Definition required_fields_present (c : t) : bool :=
  Py.truthy_opt Py.str_truthy (description c)
  && Py.truthy_opt Py.str_truthy (justification c)
  && Py.truthy_opt (fun _ => true) (risk_level c)
  && Py.truthy_opt Py.truthy (rollback_plan c).

(** [POST /{request_id}/submit] *)
Definition submit_for_approval (request_id : UUID.t) (now : Datetime.t)
  : handler ChangeRequest.t :=
  let* found := select_first request_id in
  match found with
  | None => not_found request_id
  | Some change_request =>
      if negb (status_eqb (status change_request) DRAFT) then
        bad_request "Can only submit DRAFT requests"
      else if negb (required_fields_present change_request) then
        bad_request "Missing required fields for submission"
      else
        let change_request := assign_submitted now change_request in
        let* committed := commit request_id change_request in
        ret change_request
  end.

(** [POST /{request_id}/approve] *)
Definition approve_change_request (request_id : UUID.t) (approval_data : Py.dict)
    (now : Datetime.t) : handler ChangeRequest.t :=
  let* found := select_first request_id in
  match found with
  | None => not_found request_id
  | Some change_request =>
      if negb (status_eqb (status change_request) PENDING_APPROVAL) then
        bad_request "Can only approve PENDING_APPROVAL requests"
      else
        let change_request :=
          assign_approved now (Py.get approval_data "approver_id")
                          (Py.get approval_data "approval_notes") change_request in
        let* committed := commit request_id change_request in
        ret change_request
  end.

(** [POST /{request_id}/reject] *)
Definition reject_change_request (request_id : UUID.t) (rejection_data : Py.dict)
  : handler ChangeRequest.t :=
  let* found := select_first request_id in
  match found with
  | None => not_found request_id
  | Some change_request =>
      if negb (status_eqb (status change_request) PENDING_APPROVAL) then
        bad_request "Can only reject PENDING_APPROVAL requests"
      else
        let change_request :=
          assign_rejected (Py.get rejection_data "rejection_reason")
                          (Py.get rejection_data "rejected_by") change_request in
        let* committed := commit request_id change_request in
        ret change_request
  end.

(** [POST /{request_id}/implement] *)
Definition mark_implemented (request_id : UUID.t) (implementation_data : Py.dict)
    (now : Datetime.t) : handler ChangeRequest.t :=
  let* found := select_first request_id in
  match found with
  | None => not_found request_id
  | Some change_request =>
      if negb (status_eqb (status change_request) APPROVED) then
        bad_request "Can only implement APPROVED requests"
      else
        let change_request :=
          assign_implemented now (Py.get implementation_data "implemented_by")
                             (Py.get implementation_data "implementation_notes")
                             change_request in
        let* committed := commit request_id change_request in
        ret change_request
  end.

Section Update.
(** The loop [for field, value in update_data.items(): setattr(change_request,
    field, value)]; what an assignment does to a column is the ORM's
    business. *)
Variable setattrs : Py.dict -> ChangeRequest.t -> ChangeRequest.t.

(** [PUT /{request_id}] *)
Definition update_change_request (request_id : UUID.t) (update_data : Py.dict)
  : handler ChangeRequest.t :=
  let* found := select_first request_id in
  match found with
  | None => not_found request_id
  | Some change_request =>
      if negb (status_eqb (status change_request) DRAFT) then
        bad_request "Can only modify DRAFT change requests"
      else
        let change_request := setattrs update_data change_request in
        let* committed := commit request_id change_request in
        ret change_request
  end.
End Update.

(** [GET /{request_id}] *)
Definition get_change_request (request_id : UUID.t) : handler ChangeRequest.t :=
  let* found := select_first request_id in
  match found with
  | None => not_found request_id
  | Some change_request => ret change_request
  end.

(** The status-changing calls a client can make on one request, and a run of
    them against the table; a call that raises leaves the table as it was
    and the next call goes ahead. *)
Inductive call : Type :=
| Submit (now : Datetime.t)
| Approve (approval_data : Py.dict) (now : Datetime.t)
| Reject (rejection_data : Py.dict)
| Implement (implementation_data : Py.dict) (now : Datetime.t).

Definition perform (request_id : UUID.t) (c : call) : handler ChangeRequest.t :=
  match c with
  | Submit now => submit_for_approval request_id now
  | Approve data now => approve_change_request request_id data now
  | Reject data => reject_change_request request_id data
  | Implement data now => mark_implemented request_id data now
  end.

Fixpoint perform_all (request_id : UUID.t) (calls : list call) (db : table) : table :=
  match calls with
  | [] => db
  | c :: rest => perform_all request_id rest (fst (perform request_id c db))
  end.

(** The columns no status-changing call assigns. *)
Definition same_content (a b : ChangeRequest.t) : Prop :=
  change_key a = change_key b
  /\ risk_level a = risk_level b
  /\ title a = title b
  /\ description a = description b
  /\ justification a = justification b
  /\ rollback_plan a = rollback_plan b
  /\ scheduled_start a = scheduled_start b
  /\ scheduled_end a = scheduled_end b.


End ChangeRequestsApi.

(** ** backend/app/api/kill_switches.py *)

Module KillSwitchesApi.

(** The [kill_switches] table by primary key [id]. *)
Abbreviation table := (gmap Z KillSwitch.t).

Definition not_found (switch_id : UUID.t) : ChangeRequestsApi.HTTPException :=
  ChangeRequestsApi.MakeHTTPException 404
    (String.append "Kill switch " (String.append (UUID.str switch_id) " not found")).

(** [switch.is_active = value] *)
Definition assign_is_active (value : bool) (ks : KillSwitch.t) : KillSwitch.t :=
  KillSwitch.Make (KillSwitch.id ks) (KillSwitch.switch_key ks) (KillSwitch.workflow_id ks)
    (KillSwitch.name ks) (KillSwitch.mode ks) (KillSwitch.trigger ks) value
    (KillSwitch.auto_deactivate_at ks) (KillSwitch.reason ks).



(** [POST /{switch_id}/activate] *)
Definition activate_kill_switch (switch_id : UUID.t) (db : table)
  : table * result ChangeRequestsApi.HTTPException KillSwitch.t :=
  match db !! switch_id with
  | None => (db, Raise (not_found switch_id))
  | Some switch =>
      let switch := assign_is_active true switch in
      (<[switch_id := switch]> db, Ok switch)
  end.

End KillSwitchesApi.

(** ** backend/app/db/models/break_glass.py *)

Module BreakGlass.

Inductive BreakGlassReason : Type :=
| P0_INCIDENT | DATA_LOSS | SECURITY_RESPONSE | REGULATORY | CUSTOMER_IMPACT
| SYSTEM_FAILURE.

Inductive BreakGlassStatus : Type := PENDING | APPROVED | DENIED | EXPIRED | REVOKED.

Definition status_eqb (a b : BreakGlassStatus) : bool :=
  match a, b with
  | PENDING, PENDING | APPROVED, APPROVED | DENIED, DENIED
  | EXPIRED, EXPIRED | REVOKED, REVOKED => true
  | _, _ => false
  end.

Record t : Type := Make {
  id : UUID.t;
  break_glass_key : string;
  workflow_id : option UUID.t;
  name : string;
  reason : BreakGlassReason;
  justification : string;
  status : BreakGlassStatus;
  requested_at : Datetime.t;
  valid_from : option Datetime.t;
  valid_until : option Datetime.t;
  duration_hours : Z;
  requested_by : string;
  approved_by : option string;
  denied_by : option string;
  revoked_by : option string;
  approval_notes : option string;
  denial_reason : option string;
  revocation_reason : option string;
  post_incident_review_completed : bool;
  post_incident_notes : option string;
  incident_id : option string
}.

(** [is_active], with [datetime.utcnow()] as [now]. *)
Definition is_active (self : t) (now : Datetime.t) : bool :=
  if negb (status_eqb (status self) APPROVED) then false
  else
    match valid_from self, valid_until self with
    | Some from_, Some until_ => Datetime.leb from_ now && Datetime.leb now until_
    | _, _ => false
    end.

(** [is_expired] *)
Definition is_expired (self : t) (now : Datetime.t) : bool :=
  match valid_until self with
  | None => false
  | Some until_ => Datetime.gtb now until_
  end.

(** [needs_post_incident_review] *)
Definition needs_post_incident_review (self : t) (now : Datetime.t) : bool :=
  status_eqb (status self) APPROVED
  && is_expired self now
  && negb (post_incident_review_completed self).

(** [deny(denied_by, denial_reason)] *)
Definition deny (denied_by_ denial_reason_ : string) (self : t) : t :=
  Make (id self) (break_glass_key self) (workflow_id self) (name self) (reason self)
       (justification self) DENIED (requested_at self) (valid_from self)
       (valid_until self) (duration_hours self) (requested_by self) (approved_by self)
       (Some denied_by_) (revoked_by self) (approval_notes self) (Some denial_reason_)
       (revocation_reason self) (post_incident_review_completed self)
       (post_incident_notes self) (incident_id self).

(** [revoke(revoked_by, revocation_reason)], with [datetime.utcnow()] as
    [now]: the window ends at once. *)
Definition revoke (revoked_by_ revocation_reason_ : string) (now : Datetime.t) (self : t)
  : t :=
  Make (id self) (break_glass_key self) (workflow_id self) (name self) (reason self)
       (justification self) REVOKED (requested_at self) (valid_from self)
       (Some now) (duration_hours self) (requested_by self) (approved_by self)
       (denied_by self) (Some revoked_by_) (approval_notes self) (denial_reason self)
       (Some revocation_reason_) (post_incident_review_completed self)
       (post_incident_notes self) (incident_id self).

Section Approve.
(** [d + timedelta(hours=h)] of the datetime library. *)
Variable plus_hours : Datetime.t -> Z -> Datetime.t.

(** [approve(approved_by, approval_notes=None)], with [datetime.utcnow()] as
    [now]. *)
Definition approve (approved_by_ : string) (approval_notes_ : option string)
    (now : Datetime.t) (self : t) : t :=
  Make (id self) (break_glass_key self) (workflow_id self) (name self) (reason self)
       (justification self) APPROVED (requested_at self) (Some now)
       (Some (plus_hours now (duration_hours self))) (duration_hours self)
       (requested_by self) (Some approved_by_) (denied_by self) (revoked_by self)
       approval_notes_ (denial_reason self) (revocation_reason self)
       (post_incident_review_completed self) (post_incident_notes self)
       (incident_id self).
End Approve.

End BreakGlass.

(** ** Concrete inputs used by the examples and counterexamples below *)

Module Examples.
Import Py.

Definition t0 : Datetime.t := Datetime.Make 2025 1 2 3 4 5 0.
Definition t1 : Datetime.t := Datetime.Make 2025 1 2 3 4 6 120.

(** Two audit events as they are stored: sequence number and timestamp from
    the insert, hash from [compute_hash] on the stored fields. *)
Definition stored (seq : Z) (now : Datetime.t) (e : AuditEvent.t) : AuditEvent.t :=
  let e' := AuditEvent.inserted seq now e in
  AuditEvent.set_event_hash (Some (AuditEvent.compute_hash e' None)) e'.

Definition draft_first : AuditEvent.t :=
  AuditEvent.create_event "GATE_EXECUTED" "gate ran" 17 "USER" "SUCCESS"
    (JDict [("request_id", JStr "r-1"); ("gate_id", JInt 7)])
    (Some "GATE") (Some 34) None None None None.

Definition first_event : AuditEvent.t := stored 1 t0 draft_first.

Definition draft_second : AuditEvent.t :=
  AuditEvent.create_event "GATE_BLOCKED" "gate blocked" 17 "USER" "BLOCKED"
    (JDict []) None None None None None (AuditEvent.event_hash first_event).

Definition second_event : AuditEvent.t := stored 2 t1 draft_second.

Definition chain : Ledger.ledger := [first_event; second_event].

(** The first event after an edit of its stored context. *)
Definition edited_context : json := JDict [("request_id", JStr "r-2"); ("gate_id", JInt 7)].
Definition first_event_tampered : AuditEvent.t :=
  AuditEvent.set_context edited_context first_event.

(** The same event under another primary key and with other metadata. *)
Definition first_event_copy : AuditEvent.t :=
  AuditEvent.Make (Some 99) (Some 1) "GATE_EXECUTED" "gate ran" 17 "USER"
    (Some "ops@example.com") (Some "GATE") (Some 34) (Some "invoice gate")
    (JDict [("request_id", JStr "r-1"); ("gate_id", JInt 7)]) "SUCCESS" None None
    (Some t0) (JDict [("exported", JBool true)]).

(** Change requests. *)
Definition draft_request (risk : ChangeRequest.ChangeRiskLevel) : ChangeRequest.t :=
  ChangeRequest.Make "CHG-2025-001" (Some risk) "Deploy invoice workflow"
    (Some "Roll out version 2") (Some "Fixes rounding") (Some (JStr "Redeploy version 1"))
    ChangeRequest.DRAFT None None JNull JNull JNull JNull None JNull JNull None None.

Definition window_start : Datetime.t := Datetime.Make 2025 3 1 22 0 0 0.
Definition window_end : Datetime.t := Datetime.Make 2025 3 1 23 0 0 0.
Definition after_window : Datetime.t := Datetime.Make 2025 3 2 9 30 0 0.

Definition approved_request : ChangeRequest.t :=
  ChangeRequest.Make "CHG-2025-002" (Some ChangeRequest.HIGH) "Rotate model"
    (Some "Swap the model") (Some "Drift") (Some (JStr "Restore the old model"))
    ChangeRequest.APPROVED (Some t0) (Some t1) (JStr "cto") JNull JNull JNull
    None JNull JNull (Some window_start) (Some window_end).

Definition unscheduled_request : ChangeRequest.t :=
  ChangeRequest.Make "CHG-2025-003" (Some ChangeRequest.MEDIUM) "Tune limits"
    (Some "Raise a limit") (Some "Load") (Some (JStr "Lower it again"))
    ChangeRequest.APPROVED (Some t0) (Some t1) (JStr "lead") JNull JNull JNull
    None JNull JNull (Some window_start) None.

Definition requests (cr : ChangeRequest.t) : gmap Z ChangeRequest.t := {[ 7 := cr ]}.

(** Control policies. *)
Definition policy (id : UUID.t) (name : string) (outcome : ControlPolicy.PolicyOutcome)
    (action : ControlPolicy.PolicyAction) (conditions auto_deny : option json)
    (priority : Z) : ControlPolicy.t :=
  ControlPolicy.Make id name None name None action outcome conditions auto_deny
                     priority true.

(** Applies in production; after hours it is an instant deny. *)
Definition prod_policy : ControlPolicy.t :=
  policy 5 "prod-allow" ControlPolicy.ALLOW ControlPolicy.ACTION_ALLOW
    (Some (JDict [("environment", JStr "prod")]))
    (Some (JDict [("after_hours", JBool true)])) 100.

Definition staging_after_hours : dict :=
  [("environment", JStr "staging"); ("after_hours", JBool true)].



(** The scenario of the specification: allow in production at priority 10,
    deny after hours at priority 20. *)
Definition allow_in_prod : ControlPolicy.t :=
  policy 31 "allow-prod" ControlPolicy.ALLOW ControlPolicy.ACTION_ALLOW
    (Some (JDict [("env", JStr "prod")])) None 10.
Definition deny_after_hours : ControlPolicy.t :=
  policy 32 "deny-after-hours" ControlPolicy.DENY ControlPolicy.ACTION_DENY
    (Some (JDict [("after_hours", JBool true)])) None 20.
Definition prod_after_hours : dict := [("env", JStr "prod"); ("after_hours", JBool true)].


Definition gate (check_switches : bool) : EnforcementGate.t :=
  EnforcementGate.Make 50 "workflow.invoice.pre_execution" EnforcementGate.PRE_EXECUTION
    (Some 60) None [31; 32] "BLOCKING" true check_switches true.


(** A switch that was given a time limit on an earlier activation and is
    now inactive. *)
Definition expired_freeze : KillSwitch.t :=
  KillSwitch.Make 71 "after-hours-freeze" (Some 60) "After-hours freeze"
    KillSwitch.SOFT_STOP KillSwitch.MANUAL false (Some window_end) "Weekend freeze".

Definition switches : gmap Z KillSwitch.t := {[ 71 := expired_freeze ]}.

(** An approved break-glass window. *)
Definition open_glass : BreakGlass.t :=
  BreakGlass.Make 80 "BG-1" None "Hotfix" BreakGlass.P0_INCIDENT "Checkout is down"
    BreakGlass.APPROVED t0 (Some window_start) (Some window_end) 1 "commander"
    (Some "on-call") None None None None None false None (Some "INC-1").

Definition in_window : Datetime.t := Datetime.Make 2025 3 1 22 30 0 0.

End Examples.

(** * Properties *)

(** ** Strings *)

Lemma length_append (s1 s2 : string) :
  String.length (String.append s1 s2) = (String.length s1 + String.length s2)%nat.
Proof. induction s1 as [|c s1 IH]; simpl; [reflexivity | now rewrite IH]. Qed.

Lemma all_chars_append (p : ascii -> bool) (s1 s2 : string) :
  Text.all_chars p (String.append s1 s2) = Text.all_chars p s1 && Text.all_chars p s2.
Proof.
  induction s1 as [|c s1 IH]; simpl; [reflexivity|].
  rewrite IH. now rewrite andb_assoc.
Qed.

Lemma length_hex_fixed (width : nat) (n : Z) :
  String.length (Text.hex_fixed width n) = width.
Proof. induction width as [|w IH]; simpl; congruence. Qed.

Lemma hex_digit_is_hex (d : Z) : 0 <= d < 16 -> Text.is_hex (Text.hex_digit d) = true.
Proof.
  intros Hd.
  assert (Hcases : d = 0 \/ d = 1 \/ d = 2 \/ d = 3 \/ d = 4 \/ d = 5 \/ d = 6 \/ d = 7
                   \/ d = 8 \/ d = 9 \/ d = 10 \/ d = 11 \/ d = 12 \/ d = 13 \/ d = 14
                   \/ d = 15) by lia.
  repeat (destruct Hcases as [-> | Hcases]; [reflexivity|]).
  now subst.
Qed.

Lemma hex_fixed_is_hex (width : nat) (n : Z) :
  Text.all_chars Text.is_hex (Text.hex_fixed width n) = true.
Proof.
  induction width as [|w IH]; simpl; [reflexivity|].
  rewrite IH, andb_true_r.
  apply hex_digit_is_hex, Z.mod_pos_bound. lia.
Qed.

(** ** The digest *)

Lemma hexdigest_length (msg : list Z) : String.length (SHA256.hexdigest msg) = 64%nat.
Proof.
  unfold SHA256.hexdigest, SHA256.hex_of_state. cbn [map String.concat].
  repeat rewrite length_append. repeat rewrite length_hex_fixed. reflexivity.
Qed.

Lemma hexdigest_is_hex (msg : list Z) :
  Text.all_chars Text.is_hex (SHA256.hexdigest msg) = true.
Proof.
  unfold SHA256.hexdigest, SHA256.hex_of_state. cbn [map String.concat].
  repeat rewrite all_chars_append. repeat rewrite hex_fixed_is_hex. reflexivity.
Qed.

(** ** Optional values *)

Lemma opt_str_eqb_eq (x y : option string) : Opt.str_eqb x y = true <-> x = y.
Proof.
  destruct x as [a|], y as [b|]; simpl; split; intros H; try congruence.
  - apply String.eqb_eq in H. congruence.
  - inversion H. apply String.eqb_refl.
Qed.

Lemma opt_int_eqb_eq (x y : option Z) : Opt.int_eqb x y = true <-> x = y.
Proof.
  destruct x as [a|], y as [b|]; simpl; split; intros H; try congruence.
  - apply Z.eqb_eq in H. congruence.
  - inversion H. apply Z.eqb_refl.
Qed.

(** ** Audit events *)

(** The hash does not read the stored hash, nor the columns outside
    [hash_data]. *)
Lemma compute_hash_set_event_hash (h : option string) (e : AuditEvent.t) (ph : option string) :
  AuditEvent.compute_hash (AuditEvent.set_event_hash h e) ph = AuditEvent.compute_hash e ph.
Proof. reflexivity. Qed.

(** C9. Two audit events that agree on the hashed fields (sequence number,
    event type, action, actor id and type, resource type and id, outcome,
    context, previous hash, creation time) have the same [compute_hash],
    whatever their other columns hold; and the result is always 64 lowercase
    hexadecimal characters. *)
Theorem compute_hash_deterministic_hex64 (e1 e2 : AuditEvent.t) (ph : option string) :
  AuditEvent.sequence_number e1 = AuditEvent.sequence_number e2 ->
  AuditEvent.event_type e1 = AuditEvent.event_type e2 ->
  AuditEvent.action e1 = AuditEvent.action e2 ->
  AuditEvent.actor_id e1 = AuditEvent.actor_id e2 ->
  AuditEvent.actor_type e1 = AuditEvent.actor_type e2 ->
  AuditEvent.resource_type e1 = AuditEvent.resource_type e2 ->
  AuditEvent.resource_id e1 = AuditEvent.resource_id e2 ->
  AuditEvent.outcome e1 = AuditEvent.outcome e2 ->
  AuditEvent.context e1 = AuditEvent.context e2 ->
  AuditEvent.previous_hash e1 = AuditEvent.previous_hash e2 ->
  AuditEvent.created_at e1 = AuditEvent.created_at e2 ->
  AuditEvent.compute_hash e1 ph = AuditEvent.compute_hash e2 ph
  /\ String.length (AuditEvent.compute_hash e1 ph) = 64%nat
  /\ Text.all_chars Text.is_hex (AuditEvent.compute_hash e1 ph) = true.
Proof.
  intros Hseq Hty Hact Haid Haty Hrty Hrid Hout Hctx Hprev Hat.
  split; [|split].
  - unfold AuditEvent.compute_hash, AuditEvent.hash_data.
    now rewrite Hseq, Hty, Hact, Haid, Haty, Hrty, Hrid, Hout, Hctx, Hprev, Hat.
  - apply hexdigest_length.
  - apply hexdigest_is_hex.
Qed.

Lemma compute_hash_deterministic_hex64_witness :
  AuditEvent.compute_hash Examples.first_event None
  = AuditEvent.compute_hash Examples.first_event_copy None
  /\ String.length (AuditEvent.compute_hash Examples.first_event None) = 64%nat
  /\ Text.all_chars Text.is_hex (AuditEvent.compute_hash Examples.first_event None) = true.
Proof.
  apply (compute_hash_deterministic_hex64 Examples.first_event Examples.first_event_copy None);
    reflexivity.
Defined.

(** What [verify_chain] decides, case by case. *)

Lemma verify_chain_first (e : AuditEvent.t) (prev : option AuditEvent.t) :
  AuditEvent.sequence_number e = Some 1 ->
  AuditEvent.verify_chain e prev = Opt.is_none (AuditEvent.previous_hash e).
Proof. intros Hseq. unfold AuditEvent.verify_chain. now rewrite Hseq. Qed.

Lemma verify_chain_later (e p : AuditEvent.t) :
  AuditEvent.sequence_number e <> Some 1 ->
  AuditEvent.verify_chain e (Some p) = true <->
  AuditEvent.previous_hash e = AuditEvent.event_hash p
  /\ AuditEvent.event_hash e = Some (AuditEvent.compute_hash e None).
Proof.
  intros Hseq. unfold AuditEvent.verify_chain.
  destruct (Opt.int_eqb (AuditEvent.sequence_number e) (Some 1)) eqn:Hone.
  - apply opt_int_eqb_eq in Hone. contradiction.
  - destruct (Opt.str_eqb (AuditEvent.previous_hash e) (AuditEvent.event_hash p)) eqn:Hlink;
      simpl.
    + apply opt_str_eqb_eq in Hlink. rewrite opt_str_eqb_eq. tauto.
    + split; [discriminate|]. intros [Hl _]. apply opt_str_eqb_eq in Hl. congruence.
Qed.

(** ** The ledger *)

Section LedgerInvariant.
Import AuditEvent Ledger.

Lemma linked_nil : linked [].
Proof. intros n e H. destruct n; discriminate. Qed.

Lemma tip_hash_last (l : ledger) (p : AuditEvent.t) :
  l !! pred (length l) = Some p -> l <> [] -> tip_hash l = event_hash p.
Proof.
  intros Hp Hne. unfold tip_hash, tip. rewrite last_lookup. now rewrite Hp.
Qed.

(** A linked chain passes the walk from any position. *)
Lemma walk_linked (l : ledger) :
  linked l ->
  forall (events : list AuditEvent.t) (k : nat),
    events = skipn k l ->
    walk (match k with O => None | S m => l !! m end) (Z.of_nat k + 1) events = None.
Proof.
  intros Hl events. induction events as [|e rest IH]; intros k Hk; [reflexivity|].
  assert (He : l !! k = Some e).
  { pose proof (lookup_drop l k 0) as Hd. rewrite <- Hk, Nat.add_0_r in Hd.
    now rewrite <- Hd. }
  destruct (Hl k e He) as (Hseq & Hhash & Hprev).
  cbn [walk]. unfold event_ok. rewrite Hseq.
  replace (Opt.int_eqb (Some (Z.of_nat k + 1)) (Some (Z.of_nat k + 1))) with true
    by (symmetry; now apply opt_int_eqb_eq).
  cbn [andb].
  assert (Hv : verify_chain e (match k with O => None | S m => l !! m end) = true).
  { destruct k as [|m].
    - rewrite verify_chain_first by exact Hseq. now rewrite Hprev.
    - destruct Hprev as (p & Hp & Hlink). rewrite Hp.
      apply verify_chain_later; [|tauto].
      rewrite Hseq. intros Heq. injection Heq. lia. }
  rewrite Hv.
  specialize (IH (S k)).
  replace (Z.of_nat (S k) + 1) with (Z.of_nat k + 1 + 1) in IH by lia.
  cbn [Nat.pred] in IH. rewrite He in IH. apply IH.
  pose proof (drop_drop l 1 k) as Hd. rewrite <- Hk in Hd.
  change (drop 1 (e :: rest)) with rest in Hd.
  replace (S k) with (k + 1)%nat by lia. exact Hd.
Qed.

Lemma VerifyChain_linked (l : ledger) :
  linked l -> VerifyChain l 1 (Z.of_nat (length l)) = None.
Proof.
  intros Hl. unfold VerifyChain. cbn.
  replace (Z.of_nat (length l) - 1 + 1) with (Z.of_nat (length l)) by lia.
  rewrite Nat2Z.id, firstn_all.
  exact (walk_linked l Hl l 0%nat eq_refl).
Qed.

(** [Append] keeps the chain linked and puts the new event at the end. *)
Lemma Append_linked (l l' : ledger) (event : AuditEvent.t) (now : Datetime.t)
    (seq : Z) (h : string) :
  linked l ->
  Append l event now = inr (l', seq, h) ->
  linked l'
  /\ length l' = S (length l)
  /\ seq = Z.of_nat (length l) + 1
  /\ exists e, l' = (l ++ [e])%list /\ event_hash e = Some h.
Proof.
  intros Hl. unfold Append.
  destruct (Opt.str_eqb (previous_hash event) (tip_hash l)) eqn:Htip; [|discriminate].
  apply opt_str_eqb_eq in Htip. cbn [negb].
  destruct (VerifyChain l 1 (Z.of_nat (length l))); [discriminate|].
  intros Heq. injection Heq as <- <- <-.
  set (stored := inserted (Z.of_nat (length l) + 1) now event).
  set (e' := set_event_hash (Some (compute_hash stored None)) stored).
  split; [|split; [|split]].
  - intros n e Hn.
    destruct (Nat.lt_ge_cases n (length l)) as [Hlt | Hge].
    + rewrite lookup_app_l in Hn by exact Hlt.
      destruct (Hl n e Hn) as (Hs & Hh & Hp). split; [exact Hs|]. split; [exact Hh|].
      destruct n as [|m]; [exact Hp|].
      destruct Hp as (p & Hp & Hlink). exists p. split; [|exact Hlink].
      rewrite lookup_app_l; [exact Hp|]. lia.
    + rewrite lookup_app_r in Hn by exact Hge.
      destruct (n - length l)%nat as [|d] eqn:Hd; [|destruct d; discriminate].
      cbn in Hn. injection Hn as <-.
      assert (n = length l) by lia. subst n.
      split; [reflexivity|]. split; [reflexivity|].
      destruct (length l) as [|m] eqn:Hlen.
      * cbn. rewrite Htip. apply length_zero_iff_nil in Hlen. now subst l.
      * assert (Hsome : is_Some (l !! m)) by (apply lookup_lt_is_Some; lia).
        destruct Hsome as [p Hp]. exists p. split.
        -- rewrite lookup_app_l; [exact Hp|]. lia.
        -- cbn. rewrite Htip. apply tip_hash_last.
           ++ now rewrite Hlen.
           ++ intros ->. discriminate.
  - rewrite length_app. cbn. lia.
  - reflexivity.
  - exists e'. split; reflexivity.
Qed.

(** On a linked chain [Append] fails only on a stale previous hash: it
    never reports tampering, and a caller that read the tip succeeds. *)
Lemma Append_succeeds (l : ledger) (event : AuditEvent.t) (now : Datetime.t) :
  linked l ->
  previous_hash event = tip_hash l ->
  exists l' h, Append l event now = inr (l', Z.of_nat (length l) + 1, h).
Proof.
  intros Hl Htip. unfold Append.
  replace (Opt.str_eqb (previous_hash event) (tip_hash l)) with true
    by (symmetry; now apply opt_str_eqb_eq).
  cbn [negb]. rewrite VerifyChain_linked by exact Hl. eauto.
Qed.

Lemma replay_from_linked (events : list (AuditEvent.t * Datetime.t)) :
  forall l l', linked l -> replay_from l events = inr l' -> linked l'.
Proof.
  induction events as [|[e now] rest IH]; intros l l' Hl Hrun; cbn in Hrun.
  - now injection Hrun as <-.
  - destruct (Append l e now) as [err | [[l1 seq] h]] eqn:Happ; [discriminate|].
    apply (IH l1 l'); [|exact Hrun].
    now destruct (Append_linked l l1 e now seq h Hl Happ).
Qed.

End LedgerInvariant.

(** C1. In every ledger produced by appends, the event at position [n] has
    sequence number [n+1], recomputing its hash with [compute_hash] gives the
    stored [event_hash], and: the first event has no previous hash, while
    every later event's [previous_hash] is the [event_hash] of the event
    before it, so that [verify_chain] accepts it against that event. *)
Theorem appended_events_hash_chain
    (events : list (AuditEvent.t * Datetime.t)) (l : Ledger.ledger)
    (n : nat) (e : AuditEvent.t) :
  Ledger.replay events = inr l ->
  l !! n = Some e ->
  AuditEvent.sequence_number e = Some (Z.of_nat n + 1)
  /\ AuditEvent.event_hash e = Some (AuditEvent.compute_hash e None)
  /\ match n with
     | O => AuditEvent.previous_hash e = None
            /\ AuditEvent.verify_chain e None = true
     | S m => exists p, l !! m = Some p
                        /\ AuditEvent.previous_hash e = AuditEvent.event_hash p
                        /\ AuditEvent.verify_chain e (Some p) = true
     end.
Proof.
  intros Hrun Hn.
  assert (Hl : Ledger.linked l) by (apply (replay_from_linked events [] l linked_nil Hrun)).
  destruct (Hl n e Hn) as (Hseq & Hhash & Hprev).
  split; [exact Hseq|]. split; [exact Hhash|].
  destruct n as [|m].
  - split; [exact Hprev|]. rewrite verify_chain_first by exact Hseq. now rewrite Hprev.
  - destruct Hprev as (p & Hp & Hlink). exists p. split; [exact Hp|]. split; [exact Hlink|].
    apply verify_chain_later; [|tauto].
    rewrite Hseq. intros Heq. injection Heq. lia.
Qed.

Lemma appended_events_hash_chain_witness :
  AuditEvent.sequence_number Examples.second_event = Some 2
  /\ AuditEvent.event_hash Examples.second_event
     = Some (AuditEvent.compute_hash Examples.second_event None)
  /\ exists p, Examples.chain !! 0%nat = Some p
               /\ AuditEvent.previous_hash Examples.second_event = AuditEvent.event_hash p
               /\ AuditEvent.verify_chain Examples.second_event (Some p) = true.
Proof.
  apply (appended_events_hash_chain
           [(Examples.draft_first, Examples.t0); (Examples.draft_second, Examples.t1)]
Examples.chain 1%nat Examples.second_event).
- vm_compute. reflexivity.
- reflexivity.
Defined.

(** ** Tampering *)

(** An edit of the stored context of a later event is caught as soon as the
    recomputed hash differs from the stored one. *)
Lemma later_event_tamper_detected (e : AuditEvent.t) (c : Py.json)
    (prev : option AuditEvent.t) :
  AuditEvent.sequence_number e <> Some 1 ->
  AuditEvent.event_hash e = Some (AuditEvent.compute_hash e None) ->
  AuditEvent.compute_hash (AuditEvent.set_context c e) None
    <> AuditEvent.compute_hash e None ->
  AuditEvent.verify_chain (AuditEvent.set_context c e) prev = false.
Proof.
  intros Hseq Hstored Hdiff. unfold AuditEvent.verify_chain.
  change (AuditEvent.sequence_number (AuditEvent.set_context c e))
    with (AuditEvent.sequence_number e).
  change (AuditEvent.event_hash (AuditEvent.set_context c e))
    with (AuditEvent.event_hash e).
  change (AuditEvent.previous_hash (AuditEvent.set_context c e))
    with (AuditEvent.previous_hash e).
  set (recomputed := AuditEvent.compute_hash (AuditEvent.set_context c e) None) in *.
  set (original := AuditEvent.compute_hash e None) in *.
  clearbody recomputed original.
  destruct (Opt.int_eqb (AuditEvent.sequence_number e) (Some 1)) eqn:Hone.
  - apply opt_int_eqb_eq in Hone. exact (False_ind _ (Hseq Hone)).
  - assert (Hno : Opt.str_eqb (AuditEvent.event_hash e) (Some recomputed) = false).
    { apply not_true_is_false. intros Heq. apply opt_str_eqb_eq in Heq. congruence. }
    rewrite Hno. destruct prev as [p|]; [|reflexivity].
    now destruct (negb _).
Qed.

(** For the first event [verify_chain] returns before it recomputes
    anything: whatever the context is changed to, the event still passes. *)
Lemma first_event_tamper_accepted (e : AuditEvent.t) (c : Py.json)
    (prev : option AuditEvent.t) :
  AuditEvent.sequence_number e = Some 1 ->
  AuditEvent.previous_hash e = None ->
  AuditEvent.verify_chain (AuditEvent.set_context c e) prev = true.
Proof.
  intros Hseq Hprev. rewrite verify_chain_first by exact Hseq.
  cbn. now rewrite Hprev.
Qed.

(** C2, at the stored two-event chain [Examples.chain] with the context of
    event 1 edited from request "r-1" to "r-2": the recomputed hash of the
    edited event is no longer the stored [event_hash], yet [verify_chain]
    accepts the edited first event and the second event after it, so no
    mismatch is reported at sequence number 1 or anywhere else. *)
Theorem tampered_first_event_passes_verify_chain :
  AuditEvent.sequence_number Examples.first_event_tampered = Some 1
  /\ AuditEvent.event_hash Examples.first_event_tampered
     = AuditEvent.event_hash Examples.first_event
  /\ AuditEvent.event_hash Examples.first_event_tampered
     <> Some (AuditEvent.compute_hash Examples.first_event_tampered None)
  /\ AuditEvent.verify_chain Examples.first_event_tampered None = true
  /\ AuditEvent.verify_chain Examples.second_event (Some Examples.first_event_tampered)
     = true.
Proof.
  split; [reflexivity|]. split; [reflexivity|]. split; [|split].
  - vm_compute. discriminate.
  - vm_compute. reflexivity.
  - vm_compute. reflexivity.
Qed.

(** The same through the range walk: the untouched chain verifies, the chain
    with event 1 edited verifies too, the chain with event 2 edited is
    reported at 2. *)
Example VerifyChain_on_examples :
  Ledger.VerifyChain Examples.chain 1 2 = None
  /\ Ledger.VerifyChain [Examples.first_event_tampered; Examples.second_event] 1 2 = None
  /\ Ledger.VerifyChain
       (Ledger.tamper_context 2 Examples.edited_context Examples.chain) 1 2 = Some 2.
Proof. repeat split; vm_compute; reflexivity. Qed.

(** ** Change requests *)

Section ChangeRequestFacts.
Import ChangeRequest ChangeRequestsApi.

Lemma status_eqb_eq (a b : ChangeStatus) : status_eqb a b = true <-> a = b.
Proof. destruct a, b; simpl; split; intros H; congruence. Qed.

Lemma status_eqb_neq (a b : ChangeStatus) : status_eqb a b = false <-> a <> b.
Proof. destruct a, b; simpl; split; intros H; congruence. Qed.

(** What each handler does to a stored request, by cases on its status. *)

Lemma submit_for_approval_missing (request_id : UUID.t) (now : Datetime.t) (db : table) :
  db !! request_id = None ->
  exists e, submit_for_approval request_id now db = (db, Raise e)
            /\ status_code e = HTTP_404_NOT_FOUND.
Proof.
  intros Hnone. unfold submit_for_approval, bind, select_first.
  rewrite Hnone. eexists. split; reflexivity.
Qed.








(** [required_fields_present] is the conjunction of the four truth tests. *)
Lemma required_fields_present_iff (cr : ChangeRequest.t) :
  required_fields_present cr = true <->
  (exists d, description cr = Some d /\ d <> "")
  /\ (exists j, justification cr = Some j /\ j <> "")
  /\ (exists r, risk_level cr = Some r)
  /\ (exists p, rollback_plan cr = Some p /\ Py.truthy p = true).
Proof.
  unfold required_fields_present, Py.truthy_opt, Py.str_truthy.
  rewrite !andb_true_iff.
  destruct (description cr) as [d|], (justification cr) as [j|],
           (risk_level cr) as [r|], (rollback_plan cr) as [p|];
    rewrite ?negb_true_iff, ?String.eqb_neq; split;
    try (intros (((H1 & H2) & H3) & H4); try discriminate);
    try (intros ((d' & Hd & Hd') & (j' & Hj & Hj') & (r' & Hr) & (p' & Hp & Hp'));
         try discriminate).
  - repeat split; eauto.
  - injection Hd as <-. injection Hj as <-. injection Hp as <-. tauto.
Qed.

End ChangeRequestFacts.










(** C10. A change request whose [scheduled_start] or [scheduled_end] is not
    set is never within its execution window, at any time. *)
Theorem unscheduled_never_within_window (cr : ChangeRequest.t) (now : Datetime.t) :
  ChangeRequest.scheduled_start cr = None \/ ChangeRequest.scheduled_end cr = None ->
  ChangeRequest.is_within_execution_window cr now = false.
Proof.
  intros [H | H]; unfold ChangeRequest.is_within_execution_window; rewrite H;
    [reflexivity | now destruct (ChangeRequest.scheduled_start cr)].
Qed.

Lemma unscheduled_never_within_window_witness :
  ChangeRequest.is_within_execution_window Examples.unscheduled_request
Examples.window_start = false.
Proof.
  apply (unscheduled_never_within_window Examples.unscheduled_request Examples.window_start).
  right. reflexivity.
Defined.

(** ** Control policies *)

Section PolicyConditions.
Import Py ControlPolicy.

Lemma auto_deny_triggered_iff (context entries : dict) :
  auto_deny_triggered context entries = true <->
  exists key expected, In (key, expected) entries
                       /\ Py.eq (get context key) expected = true.
Proof.
  induction entries as [|[k v] rest IH]; simpl.
  - split; [discriminate | intros (? & ? & [] & _)].
  - destruct (Py.eq (get context k) v) eqn:Hkv.
    + split; [|reflexivity]. intros _. exists k, v. auto.
    + rewrite IH. split.
      * intros (k' & v' & Hin & Heq). exists k', v'. auto.
      * intros (k' & v' & [Hhd | Hin] & Heq); [|eauto].
        injection Hhd as <- <-. congruence.
Qed.

Lemma conditions_hold_iff (context entries : dict) :
  conditions_hold context entries = true <->
  forall key expected, In (key, expected) entries ->
                       Py.eq (get context key) expected = true.
Proof.
  induction entries as [|[k v] rest IH]; simpl.
  - split; [intros _ ? ? [] | reflexivity].
  - unfold Py.ne. destruct (Py.eq (get context k) v) eqn:Hkv; simpl.
    + rewrite IH. split.
      * intros H k' v' [Hhd | Hin]; [|auto]. injection Hhd as <- <-. exact Hkv.
      * intros H k' v' Hin. apply H. auto.
    + split; [discriminate|]. intros H. rewrite <- Hkv. apply H. auto.
Qed.

Lemma evaluate_conditions_nonempty (p : ControlPolicy.t) (context cs ad : dict) :
  conditions p = Some (JDict cs) -> cs <> [] -> ControlPolicy.auto_deny_entries p ad ->
  evaluate_conditions p context
  = Ok (auto_deny_triggered context ad || conditions_hold context cs).
Proof.
  intros Hcs Hne Had. unfold evaluate_conditions. rewrite Hcs.
  destruct cs as [|c cs']; [congruence|]. cbn [truthy_opt truthy negb items].
  destruct Had as [Had | [Had ->]]; rewrite Had.
  - destruct ad as [|a ad'].
    + cbn. reflexivity.
    + cbn [truthy_opt truthy items]. now destruct (auto_deny_triggered context (a :: ad')).
  - reflexivity.
Qed.

End PolicyConditions.

(** C4, as stated, fails: [Examples.prod_policy] has the non-empty condition
    set environment = "prod"; in the context of a staging request made after
    hours its auto-deny entry matches and [evaluate_conditions] returns
    [True], so the policy applies although the context does not have the
    listed value for the listed key. The value returned is the one that
    means "applies"; no deny decision comes out of the function. *)
Lemma auto_deny_match_applies_policy_without_conditions :
  ControlPolicy.conditions Examples.prod_policy
  = Some (Py.JDict [("environment", Py.JStr "prod")])
  /\ Py.eq (Py.get Examples.staging_after_hours "environment") (Py.JStr "prod") = false
  /\ ControlPolicy.evaluate_conditions Examples.prod_policy Examples.staging_after_hours
     = Ok true
  /\ ControlPolicy.outcome Examples.prod_policy = ControlPolicy.ALLOW.
Proof. repeat split. Qed.

(** C4, amended. A policy whose condition set is empty or missing applies.
    For a policy with a non-empty condition set, the auto-deny entries are
    checked first: if the context value of any auto-deny key equals its
    expected value, [evaluate_conditions] returns [True] at once (the policy
    applies; the function has no other way to say "deny") without looking at
    the standard conditions; if none matches, the policy applies exactly when
    [context.get(key)] equals the expected value for every listed condition
    key. *)
Theorem evaluate_conditions_semantics (p : ControlPolicy.t) (context : Py.dict) :
  (Py.truthy_opt Py.truthy (ControlPolicy.conditions p) = false ->
   ControlPolicy.evaluate_conditions p context = Ok true)
  /\ (forall cs ad : Py.dict,
        ControlPolicy.conditions p = Some (Py.JDict cs) -> cs <> [] ->
        ControlPolicy.auto_deny_entries p ad ->
        ((exists key expected, In (key, expected) ad
                               /\ Py.eq (Py.get context key) expected = true) ->
         ControlPolicy.evaluate_conditions p context = Ok true)
        /\ ((forall key expected, In (key, expected) ad ->
                                  Py.eq (Py.get context key) expected = false) ->
            (ControlPolicy.evaluate_conditions p context = Ok true
             <-> forall key expected, In (key, expected) cs ->
                                      Py.eq (Py.get context key) expected = true)
            /\ (ControlPolicy.evaluate_conditions p context = Ok true
                \/ ControlPolicy.evaluate_conditions p context = Ok false))).
Proof.
  split.
  - intros Hfalsy. unfold ControlPolicy.evaluate_conditions. now rewrite Hfalsy.
  - intros cs ad Hcs Hne Had.
    rewrite (evaluate_conditions_nonempty p context cs ad Hcs Hne Had).
    split.
    + intros Hmatch. apply auto_deny_triggered_iff in Hmatch. now rewrite Hmatch.
    + intros Hnone.
      assert (Hno : ControlPolicy.auto_deny_triggered context ad = false).
      { apply not_true_is_false. intros Ht. apply auto_deny_triggered_iff in Ht.
        destruct Ht as (k & v & Hin & Heq). rewrite (Hnone k v Hin) in Heq. discriminate. }
      rewrite Hno. cbn [orb]. split.
      * rewrite <- conditions_hold_iff. split; [now injection 1 | now intros ->].
      * destruct (ControlPolicy.conditions_hold context cs); auto.
Qed.

Lemma evaluate_conditions_semantics_witness :
  ControlPolicy.evaluate_conditions Examples.allow_in_prod Examples.prod_after_hours
  = Ok true.
Proof.
  destruct (evaluate_conditions_semantics Examples.allow_in_prod Examples.prod_after_hours)
    as [_ H].
  destruct (H [("env", Py.JStr "prod")] []) as [_ H'].
  - reflexivity.
  - discriminate.
  - right. split; reflexivity.
  - destruct H' as [[_ H'] _]; [intros ? ? []|].
    apply H'. intros key expected [Heq | []]. injection Heq as <- <-. reflexivity.
Defined.

(** ** The stable sort *)

Section SortFacts.
Context {A : Type} (leb : A -> A -> bool).

Lemma insert_Permutation (x : A) (l : list A) :
  Permutation (x :: l) (Sort.insert leb x l).
Proof.
  induction l as [|y rest IH]; simpl; [reflexivity|].
  destruct (leb x y); [reflexivity|].
  etransitivity; [apply perm_swap|]. now apply perm_skip.
Qed.

Lemma sort_Permutation (l : list A) : Permutation l (Sort.sort leb l).
Proof.
  induction l as [|x rest IH]; simpl; [reflexivity|].
  etransitivity; [apply perm_skip, IH | apply insert_Permutation].
Qed.



Variable le : A -> A -> Prop.
Hypothesis leb_le : forall x y, leb x y = true -> le x y.
Hypothesis leb_total : forall x y, leb x y = false -> le y x.
Hypothesis le_trans : forall x y z, le x y -> le y z -> le x z.

Lemma insert_sorted (x : A) (l : list A) :
  StronglySorted le l -> StronglySorted le (Sort.insert leb x l).
Proof.
  induction 1 as [|y rest Hsorted IH Hall]; simpl.
  - constructor; constructor.
  - destruct (leb x y) eqn:Hxy.
    + constructor; [now constructor|].
      constructor; [now apply leb_le|].
      rewrite Forall_forall in *. intros z Hz.
      eapply le_trans; [apply leb_le, Hxy | now apply Hall].
    + constructor; [exact IH|].
      eapply Permutation_Forall; [apply insert_Permutation|].
      constructor; [now apply leb_total | exact Hall].
Qed.

Lemma sort_sorted (l : list A) : StronglySorted le (Sort.sort leb l).
Proof.
  induction l as [|x rest IH]; simpl; [constructor | now apply insert_sorted].
Qed.

End SortFacts.




(** ** The listing of control policies *)

Section ListingFacts.
Import ControlPolicy ControlPoliciesApi.
Variable ilike : string -> string -> bool.




End ListingFacts.

(** ** The gate evaluator *)

Section GateFacts.
Import EnforcementGate GateEvaluator.








End GateFacts.






(** The scenario of the specification run through the model: allow in
    production at priority 10, deny after hours at priority 20, a production
    request after hours. *)
Example specification_scenario_blocks :
  EnforcementGate.outcome
    (GateEvaluator.Evaluate (Examples.gate true) []
       [Examples.deny_after_hours; Examples.allow_in_prod] 9
Examples.prod_after_hours true) = EnforcementGate.BLOCK
/\ map EnforcementGate.policy_id
(EnforcementGate.controls_evaluated
   (GateEvaluator.Evaluate (Examples.gate true) []
      [Examples.deny_after_hours; Examples.allow_in_prod] 9
Examples.prod_after_hours true)) = [31; 32]
/\ EnforcementGate.audit_event_type
(GateEvaluator.Evaluate (Examples.gate true) []
[Examples.deny_after_hours; Examples.allow_in_prod] 9
Examples.prod_after_hours true) = "GATE_BLOCKED".
Proof. repeat split. Qed.


(** ** The order on datetimes *)

Lemma lex_compare_refl (a : list Z) : Datetime.lex_compare a a = Eq.
Proof. induction a as [|x a IH]; simpl; [reflexivity|]. now rewrite Z.compare_refl. Qed.

Lemma lex_compare_eq (a b : list Z) : Datetime.lex_compare a b = Eq -> a = b.
Proof.
  revert b. induction a as [|x a IH]; intros [|y b]; simpl; try congruence.
  destruct (Z.compare_spec x y) as [Hxy | Hxy | Hxy]; try discriminate.
  intros Hrest. subst. f_equal. now apply IH.
Qed.

Lemma lex_compare_antisym (a b : list Z) :
  Datetime.lex_compare b a = CompOpp (Datetime.lex_compare a b).
Proof.
  revert b. induction a as [|x a IH]; intros [|y b]; simpl; try reflexivity.
  rewrite (Z.compare_antisym x y).
  destruct (x ?= y); simpl; [apply IH | reflexivity | reflexivity].
Qed.

Lemma lex_compare_trans (a b c : list Z) :
  Datetime.lex_compare a b <> Gt -> Datetime.lex_compare b c <> Gt ->
  Datetime.lex_compare a c <> Gt.
Proof.
  revert b c. induction a as [|x a IH]; intros [|y b] [|z c]; simpl; try congruence.
  destruct (Z.compare_spec x y), (Z.compare_spec y z), (Z.compare_spec x z);
    try lia; try congruence; subst.
  apply IH.
Qed.

Lemma datetime_fields_inj (a b : Datetime.t) : Datetime.fields a = Datetime.fields b -> a = b.
Proof. destruct a, b. unfold Datetime.fields. simpl. congruence. Qed.

Lemma datetime_leb_refl (a : Datetime.t) : Datetime.leb a a = true.
Proof. unfold Datetime.leb, Datetime.compare. now rewrite lex_compare_refl. Qed.

Lemma datetime_leb_trans (a b c : Datetime.t) :
  Datetime.leb a b = true -> Datetime.leb b c = true -> Datetime.leb a c = true.
Proof.
  unfold Datetime.leb, Datetime.compare. intros Hab Hbc.
  pose proof (lex_compare_trans (Datetime.fields a) (Datetime.fields b) (Datetime.fields c))
    as Ht.
  destruct (Datetime.lex_compare (Datetime.fields a) (Datetime.fields b));
    destruct (Datetime.lex_compare (Datetime.fields b) (Datetime.fields c));
    destruct (Datetime.lex_compare (Datetime.fields a) (Datetime.fields c));
    try reflexivity; try discriminate; exfalso; apply Ht; congruence.
Qed.

Lemma datetime_leb_total (a b : Datetime.t) :
  Datetime.leb a b = false -> Datetime.leb b a = true.
Proof.
  unfold Datetime.leb, Datetime.compare.
  rewrite (lex_compare_antisym (Datetime.fields a) (Datetime.fields b)).
  now destruct (Datetime.lex_compare (Datetime.fields a) (Datetime.fields b)).
Qed.

Lemma datetime_leb_antisym (a b : Datetime.t) :
  Datetime.leb a b = true -> Datetime.leb b a = true -> a = b.
Proof.
  unfold Datetime.leb, Datetime.compare.
  rewrite (lex_compare_antisym (Datetime.fields a) (Datetime.fields b)).
  destruct (Datetime.lex_compare (Datetime.fields a) (Datetime.fields b)) eqn:Hc;
    simpl; try discriminate.
  intros _ _. now apply datetime_fields_inj, lex_compare_eq.
Qed.

(** ** More on audit events *)

(** X1. For an event that is not the first of the chain, [verify_chain]
    returns [True] exactly when the stored [event_hash] is the recomputed
    hash and, if a previous event is passed, [previous_hash] is that event's
    [event_hash]; without a previous event the link is not looked at. *)
Theorem verify_chain_checks_hash_and_link (e : AuditEvent.t) (prev : option AuditEvent.t) :
  AuditEvent.sequence_number e <> Some 1 ->
  (AuditEvent.verify_chain e prev = true
   <-> AuditEvent.event_hash e = Some (AuditEvent.compute_hash e None)
       /\ forall p, prev = Some p -> AuditEvent.previous_hash e = AuditEvent.event_hash p).
Proof.
  intros Hseq. destruct prev as [p|].
  - rewrite (verify_chain_later e p Hseq). split.
    + intros [Hlink Hhash]. split; [exact Hhash|]. intros p' Hp. now injection Hp as <-.
    + intros [Hhash Hlink]. split; [now apply Hlink | exact Hhash].
  - unfold AuditEvent.verify_chain.
    destruct (Opt.int_eqb (AuditEvent.sequence_number e) (Some 1)) eqn:Hone.
    + apply opt_int_eqb_eq in Hone. exact (False_ind _ (Hseq Hone)).
    + set (expected := AuditEvent.compute_hash e None). clearbody expected.
      rewrite opt_str_eqb_eq. split; [|tauto].
      intros Hhash. split; [exact Hhash | discriminate].
Qed.

Lemma verify_chain_checks_hash_and_link_witness :
  AuditEvent.verify_chain Examples.second_event (Some Examples.first_event) = true
  <-> AuditEvent.event_hash Examples.second_event
      = Some (AuditEvent.compute_hash Examples.second_event None)
      /\ forall p, Some Examples.first_event = Some p ->
                   AuditEvent.previous_hash Examples.second_event = AuditEvent.event_hash p.
Proof.
  apply (verify_chain_checks_hash_and_link Examples.second_event (Some Examples.first_event)).
  vm_compute. discriminate.
Defined.

(** X2. The [previous_hash] argument of [compute_hash] replaces the event's
    own previous hash when it is a non-empty string; [None] and the empty
    string are ignored, and passing the event's own previous hash changes
    nothing. *)
Theorem compute_hash_previous_hash_argument (e : AuditEvent.t) (h : string) :
  (h <> "" ->
   AuditEvent.compute_hash e (Some h)
   = AuditEvent.compute_hash (AuditEvent.set_previous_hash (Some h) e) None)
  /\ AuditEvent.compute_hash e (Some "") = AuditEvent.compute_hash e None
  /\ AuditEvent.compute_hash e (AuditEvent.previous_hash e) = AuditEvent.compute_hash e None.
Proof.
  assert (Hdata : forall a b, Py.or_else a (AuditEvent.previous_hash e) = b ->
                              AuditEvent.hash_data e a
                              = AuditEvent.hash_data (AuditEvent.set_previous_hash b e) None).
  { intros a b <-. unfold AuditEvent.hash_data. cbn [AuditEvent.set_previous_hash
      AuditEvent.sequence_number AuditEvent.event_type AuditEvent.action AuditEvent.actor_id
      AuditEvent.actor_type AuditEvent.resource_type AuditEvent.resource_id AuditEvent.outcome
      AuditEvent.context AuditEvent.previous_hash AuditEvent.created_at].
    unfold Py.or_else at 2. cbn [Py.truthy_opt]. reflexivity. }
  unfold AuditEvent.compute_hash. split; [|split].
  - intros Hne. rewrite (Hdata (Some h) (Some h)); [reflexivity|].
    unfold Py.or_else, Py.truthy_opt, Py.str_truthy.
    apply String.eqb_neq in Hne. now rewrite Hne.
  - rewrite (Hdata (Some "") (AuditEvent.previous_hash e)) by reflexivity.
    rewrite (Hdata None (AuditEvent.previous_hash e)) by reflexivity. reflexivity.
  - rewrite (Hdata (AuditEvent.previous_hash e) (AuditEvent.previous_hash e)).
    + rewrite (Hdata None (AuditEvent.previous_hash e)) by reflexivity. reflexivity.
    + unfold Py.or_else. now destruct (Py.truthy_opt _ _).
Qed.

(** X3. An event as [create_event] returns it never passes [verify_chain],
    with or without a previous event: it has no sequence number and no hash
    until the insert has happened and the hash has been computed. *)
Theorem created_event_does_not_verify
    (event_type action : string) (actor_id : UUID.t) (actor_type outcome : string)
    (context : Py.json) (resource_type : option string) (resource_id : option UUID.t)
    (resource_name actor_email : option string) (metadata : option Py.json)
    (previous_hash : option string) (prev : option AuditEvent.t) :
  AuditEvent.verify_chain
    (AuditEvent.create_event event_type action actor_id actor_type outcome context
       resource_type resource_id resource_name actor_email metadata previous_hash)
    prev = false.
Proof.
  unfold AuditEvent.verify_chain.
  cbn [AuditEvent.create_event AuditEvent.sequence_number AuditEvent.event_hash
       AuditEvent.previous_hash Opt.int_eqb Opt.eqb].
  destruct prev as [p|]; [|reflexivity].
  now destruct (negb _).
Qed.

(** ** Key order of JSON objects *)

Lemma ascii_compare_N (a b : ascii) :
  Ascii.compare a b = N.compare (N_of_ascii a) (N_of_ascii b).
Proof. reflexivity. Qed.

Lemma string_compare_trans (a b c : string) :
  String.compare a b <> Gt -> String.compare b c <> Gt -> String.compare a c <> Gt.
Proof.
  revert b c. induction a as [|x a IH]; intros [|y b] [|z c]; simpl; try congruence.
  rewrite !ascii_compare_N.
  destruct (N.compare_spec (N_of_ascii x) (N_of_ascii y)) as [Hxy | Hxy | Hxy],
           (N.compare_spec (N_of_ascii y) (N_of_ascii z)) as [Hyz | Hyz | Hyz],
           (N.compare_spec (N_of_ascii x) (N_of_ascii z)) as [Hxz | Hxz | Hxz];
    try lia; try congruence.
  apply IH.
Qed.

Lemma string_leb_trans (a b c : string) :
  String.leb a b = true -> String.leb b c = true -> String.leb a c = true.
Proof.
  unfold String.leb. intros Hab Hbc.
  pose proof (string_compare_trans a b c) as Ht.
  destruct (String.compare a b); destruct (String.compare b c);
    destruct (String.compare a c); try reflexivity; try discriminate;
    exfalso; apply Ht; congruence.
Qed.

Lemma string_leb_false (a b : string) : String.leb a b = false -> String.leb b a = true.
Proof. intros H. destruct (String.leb_total a b) as [H' | H']; congruence. Qed.

Lemma sort_keys_sorted (l : list (string * string)) :
  StronglySorted Json.key_le (Sort.sort Json.key_leb l).
Proof.
  apply sort_sorted; unfold Json.key_le, Json.key_leb.
  - auto.
  - intros x y. apply string_leb_false.
  - intros x y z. apply string_leb_trans.
Qed.

(** Two sorted lists with the same items and no repeated key are equal. *)
Lemma sorted_unique (l1 : list (string * string)) :
  forall l2, Permutation l1 l2 -> List.NoDup (map fst l1) ->
             StronglySorted Json.key_le l1 -> StronglySorted Json.key_le l2 -> l1 = l2.
Proof.
  induction l1 as [|x l1 IH]; intros l2 Hperm Hnodup Hs1 Hs2.
  - apply Permutation_nil in Hperm. now subst.
  - destruct l2 as [|y l2].
    { apply Permutation_sym, Permutation_nil in Hperm. discriminate. }
    inversion Hs1 as [|? ? Hs1' Hall1]; subst.
    inversion Hs2 as [|? ? Hs2' Hall2]; subst.
    inversion Hnodup as [|? ? Hfresh Hnodup']; subst.
    assert (Hxy : x = y).
    { assert (Hx : In x (y :: l2)) by (eapply Permutation_in; [exact Hperm | now left]).
      assert (Hy : In y (x :: l1))
        by (eapply Permutation_in; [apply Permutation_sym, Hperm | now left]).
      destruct Hx as [Hx | Hx]; [congruence|].
      destruct Hy as [Hy | Hy]; [congruence|].
      rewrite List.Forall_forall in Hall1, Hall2.
      pose proof (Hall1 y Hy) as Hle1. pose proof (Hall2 x Hx) as Hle2.
      unfold Json.key_le, Json.key_leb in Hle1, Hle2.
      assert (Hkey : fst x = fst y) by (now apply String.leb_antisym).
      exfalso. apply Hfresh. rewrite Hkey. now apply in_map. }
    subst y. f_equal. apply IH; try assumption.
    eapply Permutation_cons_inv, Hperm.
Qed.

Lemma sort_keys_Permutation_eq (l1 l2 : list (string * string)) :
  Permutation l1 l2 -> List.NoDup (map fst l1) ->
  Sort.sort Json.key_leb l1 = Sort.sort Json.key_leb l2.
Proof.
  intros Hperm Hnodup. apply sorted_unique.
  - etransitivity; [apply Permutation_sym, sort_Permutation|].
    etransitivity; [exact Hperm | apply sort_Permutation].
  - eapply Permutation.Permutation_NoDup; [|exact Hnodup].
    apply Permutation_map, sort_Permutation.
  - apply sort_keys_sorted.
  - apply sort_keys_sorted.
Qed.

(** The rendering of a dict, with the loop over its items as a [map]. *)
Lemma dumps_dict (items : Py.dict) :
  Json.dumps (Py.JDict items)
  = String.append "{"
      (String.append
         (Text.join ", " (map Json.render_item (Sort.sort Json.key_leb (Json.rendered_items items))))
         "}").
Proof.
  cbn [Json.dumps].
  match goal with
  | |- context [Sort.sort Json.key_leb (?loop items)] =>
      assert (Hloop : forall l, loop l = Json.rendered_items l)
  end.
  { intros l. induction l as [|[k v] rest IH]; [reflexivity|].
    cbn [Json.rendered_items map fst snd]. now rewrite IH. }
  now rewrite Hloop.
Qed.

Lemma dumps_dict_Permutation (items1 items2 : Py.dict) :
  Permutation items1 items2 -> List.NoDup (map fst items1) ->
  Json.dumps (Py.JDict items1) = Json.dumps (Py.JDict items2).
Proof.
  intros Hperm Hnodup. rewrite !dumps_dict. do 4 f_equal.
  apply sort_keys_Permutation_eq.
  - now apply Permutation_map.
  - unfold Json.rendered_items. rewrite map_map. cbn [fst]. exact Hnodup.
Qed.

(** A change of one value that renders the same leaves the rendering of the
    enclosing dict as it was. *)
Lemma dumps_dict_value (before after : Py.dict) (key : string) (v1 v2 : Py.json) :
  Json.dumps v1 = Json.dumps v2 ->
  Json.dumps (Py.JDict (before ++ (key, v1) :: after)%list)
  = Json.dumps (Py.JDict (before ++ (key, v2) :: after)%list).
Proof.
  intros Hv. rewrite !dumps_dict. unfold Json.rendered_items.
  rewrite !map_app. cbn [map fst snd]. now rewrite Hv.
Qed.

(** X4. The hash of an event does not depend on the order in which the keys
    of its context were inserted: two contexts with the same items (a dict
    has no repeated key) give the same [compute_hash]. *)
Theorem compute_hash_ignores_context_key_order
    (e : AuditEvent.t) (items1 items2 : Py.dict) (ph : option string) :
  Permutation items1 items2 ->
  List.NoDup (map fst items1) ->
  AuditEvent.compute_hash (AuditEvent.set_context (Py.JDict items1) e) ph
  = AuditEvent.compute_hash (AuditEvent.set_context (Py.JDict items2) e) ph.
Proof.
  intros Hperm Hnodup. unfold AuditEvent.compute_hash. cbv zeta.
  apply (f_equal (fun s => SHA256.hexdigest (Utf8.encode s))).
  unfold AuditEvent.hash_data.
  cbn [AuditEvent.set_context AuditEvent.sequence_number AuditEvent.event_type
       AuditEvent.action AuditEvent.actor_id AuditEvent.actor_type AuditEvent.resource_type
       AuditEvent.resource_id AuditEvent.outcome AuditEvent.context
       AuditEvent.previous_hash AuditEvent.created_at].
  apply (dumps_dict_value
           [ ("sequence", _); ("event_type", _); ("action", _); ("actor_id", _);
             ("actor_type", _); ("resource_type", _); ("resource_id", _); ("outcome", _) ]
           [ ("previous_hash", _); ("created_at", _) ] "context").
  now apply dumps_dict_Permutation.
Qed.

Lemma compute_hash_ignores_context_key_order_witness :
  AuditEvent.compute_hash
    (AuditEvent.set_context
       (Py.JDict [("request_id", Py.JStr "r-1"); ("gate_id", Py.JInt 7)])
Examples.first_event) None
= AuditEvent.compute_hash
(AuditEvent.set_context
  (Py.JDict [("gate_id", Py.JInt 7); ("request_id", Py.JStr "r-1")])
Examples.first_event) None.
Proof.
  apply (compute_hash_ignores_context_key_order Examples.first_event
           [("request_id", Py.JStr "r-1"); ("gate_id", Py.JInt 7)]
           [("gate_id", Py.JInt 7); ("request_id", Py.JStr "r-1")] None).
  - apply perm_swap.
  - repeat constructor; simpl; intuition discriminate.
Defined.

(** ** More on policy conditions *)

Section PolicyConditionsMore.
Import Py ControlPolicy.

Lemma auto_deny_triggered_agree (c1 c2 entries : dict) :
  (forall key expected, In (key, expected) entries -> get c1 key = get c2 key) ->
  auto_deny_triggered c1 entries = auto_deny_triggered c2 entries.
Proof.
  induction entries as [|[k v] rest IH]; intros Hagree; [reflexivity|].
  cbn [auto_deny_triggered]. rewrite (Hagree k v) by now left.
  rewrite IH; [reflexivity|]. intros k' v' Hin. apply (Hagree k' v'). now right.
Qed.

Lemma conditions_hold_agree (c1 c2 entries : dict) :
  (forall key expected, In (key, expected) entries -> get c1 key = get c2 key) ->
  conditions_hold c1 entries = conditions_hold c2 entries.
Proof.
  induction entries as [|[k v] rest IH]; intros Hagree; [reflexivity|].
  cbn [conditions_hold]. rewrite (Hagree k v) by now left.
  rewrite IH; [reflexivity|]. intros k' v' Hin. apply (Hagree k' v'). now right.
Qed.

End PolicyConditionsMore.

(** X5. [evaluate_conditions] raises exactly when it reaches an [.items()]
    on a column that holds a truthy JSON value other than an object: the
    auto-deny column when the conditions are truthy, or else the conditions
    themselves. In particular it returns a boolean whenever each of the two
    columns is null or an object, and falsy values of any kind are
    tolerated. *)
Theorem evaluate_conditions_raises_iff (p : ControlPolicy.t) (context : Py.dict) :
  let is_object (v : option Py.json) := exists d, v = Some (Py.JDict d) in
  let truthy := Py.truthy_opt Py.truthy in
  (ControlPolicy.evaluate_conditions p context = Raise ControlPolicy.AttributeError
   <-> truthy (ControlPolicy.conditions p) = true
       /\ ((truthy (ControlPolicy.auto_deny_conditions p) = true
            /\ ~ is_object (ControlPolicy.auto_deny_conditions p))
           \/ ((truthy (ControlPolicy.auto_deny_conditions p) = false
                \/ exists ad, ControlPolicy.auto_deny_conditions p = Some (Py.JDict ad)
                              /\ ControlPolicy.auto_deny_triggered context ad = false)
               /\ ~ is_object (ControlPolicy.conditions p))))
  /\ ((ControlPolicy.conditions p = None \/ is_object (ControlPolicy.conditions p)) ->
      (ControlPolicy.auto_deny_conditions p = None
       \/ is_object (ControlPolicy.auto_deny_conditions p)) ->
      exists b, ControlPolicy.evaluate_conditions p context = Ok b).
Proof.
  cbv zeta. unfold ControlPolicy.evaluate_conditions.
  destruct (ControlPolicy.conditions p) as [c|] eqn:Hc;
    destruct (ControlPolicy.auto_deny_conditions p) as [a|] eqn:Ha.
  - (* both columns hold a value *)
    cbn [Py.truthy_opt ControlPolicy.items].
    destruct (Py.truthy c) eqn:Htc; cbn [negb].
    + destruct (Py.truthy a) eqn:Hta.
      * destruct a as [| | | | |ad];
          try (split; [split; [intros _; split; [reflexivity|]; left;
                 split; [reflexivity|]; intros [d Hd]; discriminate | reflexivity]
               | intros _ [Hn | [d Hd]]; discriminate]).
        destruct (ControlPolicy.auto_deny_triggered context ad) eqn:Htrig.
        -- split.
           ++ split; [discriminate|].
              intros [_ [[_ Hno] | [[Hf | (ad' & Had & Hnot)] _]]].
              ** exfalso. apply Hno. now exists ad.
              ** discriminate.
              ** injection Had as <-. congruence.
           ++ intros _ _. now exists true.
        -- destruct c as [| | | | |cs].
           all: try (split; [split; [intros _; split; [reflexivity|]; right; split;
                       [right; exists ad; split; [reflexivity | exact Htrig]
                       | intros [d Hd]; discriminate] | reflexivity]
                     | intros [Hn | [d Hd]]; discriminate]).
           split.
           ++ split; [discriminate|].
              intros [_ [[_ Hno] | [_ Hno]]]; exfalso; apply Hno; eauto.
           ++ intros _ _. eauto.
      * destruct c as [| | | | |cs].
        all: try (split; [split; [intros _; split; [reflexivity|]; right; split;
                    [now left | intros [d Hd]; discriminate] | reflexivity]
                  | intros [Hn | [d Hd]]; discriminate]).
        split.
        -- split; [discriminate|].
           intros [_ [[Ht _] | [_ Hno]]]; [discriminate|].
           exfalso. apply Hno. eauto.
        -- intros _ _. eauto.
    + split; [|intros _ _; eauto].
      split; [discriminate | intros [Ht _]; discriminate].
  - (* no auto-deny column *)
    cbn [Py.truthy_opt ControlPolicy.items].
    destruct (Py.truthy c) eqn:Htc; cbn [negb].
    + destruct c as [| | | | |cs].
      all: try (split; [split; [intros _; split; [reflexivity|]; right; split;
                  [now left | intros [d Hd]; discriminate] | reflexivity]
                | intros [Hn | [d Hd]]; discriminate]).
      split.
      * split; [discriminate|].
        intros [_ [[Ht _] | [_ Hno]]]; [discriminate|].
        exfalso. apply Hno. eauto.
      * intros _ _. eauto.
    + split; [|intros _ _; eauto].
      split; [discriminate | intros [Ht _]; discriminate].
  - cbn [Py.truthy_opt negb]. split; [|intros _ _; eauto].
    split; [discriminate | intros [Ht _]; discriminate].
  - cbn [Py.truthy_opt negb]. split; [|intros _ _; eauto].
    split; [discriminate | intros [Ht _]; discriminate].
Qed.

(** X6. The result of [evaluate_conditions] depends on the context only
    through the values [context.get(key)] of the keys that the policy's
    conditions and auto-deny conditions list: two contexts that agree on
    those keys give the same result, whatever else they hold. *)
Theorem evaluate_conditions_reads_listed_keys
    (p : ControlPolicy.t) (context1 context2 : Py.dict) :
  (forall entries key expected,
      ControlPolicy.conditions p = Some (Py.JDict entries)
      \/ ControlPolicy.auto_deny_conditions p = Some (Py.JDict entries) ->
      In (key, expected) entries ->
      Py.get context1 key = Py.get context2 key) ->
  ControlPolicy.evaluate_conditions p context1
  = ControlPolicy.evaluate_conditions p context2.
Proof.
  intros Hagree. unfold ControlPolicy.evaluate_conditions.
  destruct (negb _); [reflexivity|].
  assert (Hauto : forall ad, ControlPolicy.auto_deny_conditions p = Some (Py.JDict ad) ->
                             ControlPolicy.auto_deny_triggered context1 ad
                             = ControlPolicy.auto_deny_triggered context2 ad).
  { intros ad Had. apply auto_deny_triggered_agree. intros k v Hin.
    apply (Hagree ad k v); auto. }
  assert (Hcond : forall cs, ControlPolicy.conditions p = Some (Py.JDict cs) ->
                             ControlPolicy.conditions_hold context1 cs
                             = ControlPolicy.conditions_hold context2 cs).
  { intros cs Hcs. apply conditions_hold_agree. intros k v Hin.
    apply (Hagree cs k v); auto. }
  destruct (ControlPolicy.auto_deny_conditions p) as [[| | | | |ad]|];
    destruct (ControlPolicy.conditions p) as [[| | | | |cs]|];
    cbn [Py.truthy_opt ControlPolicy.items]; try reflexivity;
    rewrite ?(Hauto ad eq_refl), ?(Hcond cs eq_refl); reflexivity.
Qed.

Lemma evaluate_conditions_reads_listed_keys_witness :
  ControlPolicy.evaluate_conditions Examples.allow_in_prod Examples.prod_after_hours
  = ControlPolicy.evaluate_conditions Examples.allow_in_prod [("env", Py.JStr "prod")].
Proof.
  apply (evaluate_conditions_reads_listed_keys Examples.allow_in_prod
Examples.prod_after_hours [("env", Py.JStr "prod")]).
intros entries key expected [Hc | Ha] Hin.
- injection Hc as <-. destruct Hin as [Hin | []]. injection Hin as <- <-. reflexivity.
- discriminate Ha.
Defined.

(** X7. A key that the context does not have reads as [None]: a policy whose
    conditions all expect null for keys missing from the context applies in
    that context, while a condition that expects a string, a number, a
    boolean, a list or an object for a missing key makes the policy not
    apply (when no auto-deny entry matches). *)
Theorem missing_key_reads_as_null
    (p : ControlPolicy.t) (context cs ad : Py.dict) :
  ControlPolicy.conditions p = Some (Py.JDict cs) ->
  cs <> [] ->
  ControlPolicy.auto_deny_entries p ad ->
  (forall key expected, In (key, expected) cs -> Py.lookup key context = None) ->
  ((forall key expected, In (key, expected) cs -> expected = Py.JNull) ->
   ControlPolicy.evaluate_conditions p context = Ok true)
  /\ ((exists key expected, In (key, expected) cs /\ expected <> Py.JNull) ->
      ControlPolicy.auto_deny_triggered context ad = false ->
      ControlPolicy.evaluate_conditions p context = Ok false).
Proof.
  intros Hcs Hne Had Hmissing.
  rewrite (evaluate_conditions_nonempty p context cs ad Hcs Hne Had).
  assert (Hget : forall key expected, In (key, expected) cs -> Py.get context key = Py.JNull).
  { intros key expected Hin. unfold Py.get. now rewrite (Hmissing key expected Hin). }
  split.
  - intros Hnull.
    assert (Hhold : ControlPolicy.conditions_hold context cs = true).
    { apply conditions_hold_iff. intros key expected Hin.
      rewrite (Hget key expected Hin), (Hnull key expected Hin). reflexivity. }
    rewrite Hhold. now rewrite orb_true_r.
  - intros (key & expected & Hin & Hnot) Hno. rewrite Hno. cbn [orb]. f_equal.
    apply not_true_is_false. intros Hhold.
    rewrite conditions_hold_iff in Hhold. specialize (Hhold key expected Hin).
    rewrite (Hget key expected Hin) in Hhold.
    destruct expected; try discriminate. now apply Hnot.
Qed.

Lemma missing_key_reads_as_null_witness :
  ControlPolicy.evaluate_conditions Examples.allow_in_prod [] = Ok false.
Proof.
  destruct (missing_key_reads_as_null Examples.allow_in_prod []
              [("env", Py.JStr "prod")] []) as [_ H].
  - reflexivity.
  - discriminate.
  - right. split; reflexivity.
  - reflexivity.
  - apply H; [|reflexivity]. exists "env", (Py.JStr "prod"). split; [now left | discriminate].
Defined.

(** ** More on the policy router *)





Section ListingContent.
Import ControlPolicy ControlPoliciesApi.
Variable ilike : string -> string -> bool.



End ListingContent.


Section DeactivatePolicy.
Import ControlPolicy ControlPoliciesApi.




End DeactivatePolicy.



(** ** More on the change-request router *)

Section RouterFacts.
Import ChangeRequest ChangeRequestsApi.

(** Every status-changing call either raises and returns the table as it
    was, or rewrites the row of its request and returns the new row. *)
Lemma perform_shape (request_id : UUID.t) (c : call) (db : table) :
  (exists e, perform request_id c db = (db, Raise e)
             /\ (db !! request_id = None -> status_code e = 404)
             /\ (is_Some (db !! request_id) -> status_code e = 400))
  \/ (exists cr cr', db !! request_id = Some cr
                     /\ perform request_id c db = (<[request_id := cr']> db, Ok cr')
                     /\ same_content cr cr'
                     /\ match c with
                        | Submit now =>
                            status cr = DRAFT /\ required_fields_present cr = true
                            /\ cr' = assign_submitted now cr
                        | Approve data now =>
                            status cr = PENDING_APPROVAL
                            /\ cr' = assign_approved now (Py.get data "approver_id")
                                       (Py.get data "approval_notes") cr
                        | Reject data =>
                            status cr = PENDING_APPROVAL
                            /\ cr' = assign_rejected (Py.get data "rejection_reason")
                                       (Py.get data "rejected_by") cr
                        | Implement data now =>
                            status cr = APPROVED
                            /\ cr' = assign_implemented now (Py.get data "implemented_by")
                                       (Py.get data "implementation_notes") cr
                        end).
Proof.
  destruct c as [now | data now | data | data now];
    unfold perform, submit_for_approval, approve_change_request, reject_change_request,
           mark_implemented, bind, select_first, commit, ret, not_found, bad_request, raise;
    destruct (db !! request_id) as [cr|] eqn:Hcr.
  all: try (left; eexists; split; [reflexivity|]; split;
            [reflexivity | intros [? ?]; discriminate]).
  - destruct (status_eqb (status cr) DRAFT) eqn:Hst; cbn [negb].
    + destruct (required_fields_present cr) eqn:Hreq; cbn [negb].
      * right. exists cr, (assign_submitted now cr). apply status_eqb_eq in Hst.
        repeat split; auto.
      * left. eexists. split; [reflexivity|]. split; [discriminate | reflexivity].
    + left. eexists. split; [reflexivity|]. split; [discriminate | reflexivity].
  - destruct (status_eqb (status cr) PENDING_APPROVAL) eqn:Hst; cbn [negb].
    + right. eexists cr, _. apply status_eqb_eq in Hst. repeat split; auto.
    + left. eexists. split; [reflexivity|]. split; [discriminate | reflexivity].
  - destruct (status_eqb (status cr) PENDING_APPROVAL) eqn:Hst; cbn [negb].
    + right. eexists cr, _. apply status_eqb_eq in Hst. repeat split; auto.
    + left. eexists. split; [reflexivity|]. split; [discriminate | reflexivity].
  - destruct (status_eqb (status cr) APPROVED) eqn:Hst; cbn [negb].
    + right. eexists cr, _. apply status_eqb_eq in Hst. repeat split; auto.
    + left. eexists. split; [reflexivity|]. split; [discriminate | reflexivity].
Qed.





End RouterFacts.


(** X12. A request whose status is neither DRAFT nor PENDING_APPROVAL nor
    APPROVED is refused by submit, approve, reject, implement and update
    alike, each with status 400, and after any run of the first four the
    table is the one before. In particular a rejected request cannot be
    revised or resubmitted, and an implemented one cannot be approved,
    rejected or implemented again. *)
Theorem settled_request_is_refused
    (setattrs : Py.dict -> ChangeRequest.t -> ChangeRequest.t)
    (request_id : UUID.t) (db : gmap Z ChangeRequest.t) (cr : ChangeRequest.t) :
  db !! request_id = Some cr ->
  ChangeRequest.status cr <> ChangeRequest.DRAFT ->
  ChangeRequest.status cr <> ChangeRequest.PENDING_APPROVAL ->
  ChangeRequest.status cr <> ChangeRequest.APPROVED ->
  (forall c, exists e,
      ChangeRequestsApi.perform request_id c db = (db, Raise e)
      /\ ChangeRequestsApi.status_code e = 400)
  /\ (forall update_data,
        ChangeRequestsApi.update_change_request setattrs request_id update_data db
        = (db, Raise (ChangeRequestsApi.MakeHTTPException 400
                        "Can only modify DRAFT change requests")))
  /\ (forall calls, ChangeRequestsApi.perform_all request_id calls db = db).
Proof.
  intros Hcr Hd Hp Ha.
  assert (Hcall : forall c, exists e,
             ChangeRequestsApi.perform request_id c db = (db, Raise e)
             /\ ChangeRequestsApi.status_code e = 400).
  { intros c.
    destruct (perform_shape request_id c db)
      as [(e & Hrun & _ & H400) | (cr0 & cr' & Hcr0 & _ & _ & Hcase)].
    - exists e. split; [exact Hrun | apply H400; eauto].
    - rewrite Hcr in Hcr0. injection Hcr0 as <-.
      destruct c; destruct Hcase as [Hst _]; contradiction. }
  split; [exact Hcall|]. split.
  - intros update_data.
    unfold ChangeRequestsApi.update_change_request, ChangeRequestsApi.bind,
      ChangeRequestsApi.select_first.
    rewrite Hcr. apply status_eqb_neq in Hd. now rewrite Hd.
  - intros calls. induction calls as [|c rest IH]; [reflexivity|].
    cbn [ChangeRequestsApi.perform_all]. destruct (Hcall c) as (e & Hrun & _).
    now rewrite Hrun.
Qed.

Lemma settled_request_is_refused_witness :
  (forall c, exists e,
      ChangeRequestsApi.perform 7 c
        (Examples.requests (ChangeRequestsApi.assign_rejected (Py.JStr "too risky")
                              (Py.JStr "cto") (Examples.draft_request ChangeRequest.HIGH)))
      = (Examples.requests (ChangeRequestsApi.assign_rejected (Py.JStr "too risky")
                              (Py.JStr "cto") (Examples.draft_request ChangeRequest.HIGH)),
         Raise e)
      /\ ChangeRequestsApi.status_code e = 400)
  /\ (forall update_data,
        ChangeRequestsApi.update_change_request (fun _ cr => cr) 7 update_data
          (Examples.requests (ChangeRequestsApi.assign_rejected (Py.JStr "too risky")
                                (Py.JStr "cto") (Examples.draft_request ChangeRequest.HIGH)))
        = (Examples.requests (ChangeRequestsApi.assign_rejected (Py.JStr "too risky")
                                (Py.JStr "cto") (Examples.draft_request ChangeRequest.HIGH)),
           Raise (ChangeRequestsApi.MakeHTTPException 400
                    "Can only modify DRAFT change requests")))
  /\ (forall calls,
        ChangeRequestsApi.perform_all 7 calls
          (Examples.requests (ChangeRequestsApi.assign_rejected (Py.JStr "too risky")
                                (Py.JStr "cto") (Examples.draft_request ChangeRequest.HIGH)))
        = Examples.requests (ChangeRequestsApi.assign_rejected (Py.JStr "too risky")
                               (Py.JStr "cto") (Examples.draft_request ChangeRequest.HIGH))).
Proof.
  apply (settled_request_is_refused (fun _ cr => cr) 7
           (Examples.requests (ChangeRequestsApi.assign_rejected (Py.JStr "too risky")
                                 (Py.JStr "cto") (Examples.draft_request ChangeRequest.HIGH)))
           (ChangeRequestsApi.assign_rejected (Py.JStr "too risky") (Py.JStr "cto")
              (Examples.draft_request ChangeRequest.HIGH)));
    [reflexivity | discriminate | discriminate | discriminate].
Defined.





(** ** The execution window *)

(** X15. The execution window is the closed interval between its two ends:
    when [scheduled_start <= scheduled_end], both ends are inside; every
    time between two times that are inside is inside; and when the end lies
    before the start, no time is inside. *)
Theorem execution_window_is_closed_interval
    (cr : ChangeRequest.t) (start_ end_ : Datetime.t) :
  ChangeRequest.scheduled_start cr = Some start_ ->
  ChangeRequest.scheduled_end cr = Some end_ ->
  (Datetime.leb start_ end_ = true ->
   ChangeRequest.is_within_execution_window cr start_ = true
   /\ ChangeRequest.is_within_execution_window cr end_ = true)
  /\ (forall t1 t2 t3,
        ChangeRequest.is_within_execution_window cr t1 = true ->
        ChangeRequest.is_within_execution_window cr t3 = true ->
        Datetime.leb t1 t2 = true -> Datetime.leb t2 t3 = true ->
        ChangeRequest.is_within_execution_window cr t2 = true)
  /\ (Datetime.leb start_ end_ = false ->
      forall now, ChangeRequest.is_within_execution_window cr now = false).
Proof.
  intros Hs He. unfold ChangeRequest.is_within_execution_window. rewrite Hs, He.
  split; [|split].
  - intros Hle. rewrite !datetime_leb_refl, Hle. split; reflexivity.
  - intros t1 t2 t3 H1 H3 H12 H23.
    apply andb_true_iff in H1. apply andb_true_iff in H3. apply andb_true_iff. split.
    + apply (datetime_leb_trans start_ t1 t2); tauto.
    + apply (datetime_leb_trans t2 t3 end_); tauto.
  - intros Hempty now. apply not_true_is_false. intros Hin.
    apply andb_true_iff in Hin.
    rewrite (datetime_leb_trans start_ now end_) in Hempty by tauto. discriminate.
Qed.

Lemma execution_window_is_closed_interval_witness :
  ChangeRequest.is_within_execution_window Examples.approved_request Examples.window_start
  = true
  /\ ChangeRequest.is_within_execution_window Examples.approved_request Examples.window_end
     = true.
Proof.
  apply (execution_window_is_closed_interval Examples.approved_request
Examples.window_start Examples.window_end); reflexivity.
Defined.

(** ** Kill switches *)

(** X16. Once a kill switch is due for auto-deactivation it stays due: if
    [should_auto_deactivate] holds at some time it holds at every later
    time, and it can only hold for an active switch with a time limit. *)
Theorem auto_deactivation_stays_due (ks : KillSwitch.t) (t t' : Datetime.t) :
  KillSwitch.should_auto_deactivate ks t = true ->
  Datetime.leb t t' = true ->
  KillSwitch.should_auto_deactivate ks t' = true
  /\ KillSwitch.is_active ks = true
  /\ KillSwitch.auto_deactivate_at ks <> None.
Proof.
  unfold KillSwitch.should_auto_deactivate.
  destruct (KillSwitch.is_active ks); [|discriminate].
  destruct (KillSwitch.auto_deactivate_at ks) as [limit|]; [|discriminate].
  intros Hdue Hlater. split; [|split; [reflexivity | discriminate]].
  now apply (datetime_leb_trans limit t t').
Qed.

Lemma auto_deactivation_stays_due_witness :
  KillSwitch.should_auto_deactivate
    (KillSwitchesApi.assign_is_active true Examples.expired_freeze) Examples.after_window
  = true
  /\ KillSwitch.is_active (KillSwitchesApi.assign_is_active true Examples.expired_freeze)
     = true
  /\ KillSwitch.auto_deactivate_at
       (KillSwitchesApi.assign_is_active true Examples.expired_freeze) <> None.
Proof.
  apply (auto_deactivation_stays_due
           (KillSwitchesApi.assign_is_active true Examples.expired_freeze)
Examples.window_end Examples.after_window); reflexivity.
Defined.

Section KillSwitchApiFacts.
Import KillSwitch KillSwitchesApi.



End KillSwitchApiFacts.



(** X18. Activation through the router sets the flag and nothing else: the
    reason and the auto-deactivate time of an earlier activation stay. So a
    switch whose auto-deactivate time has already passed is due for
    auto-deactivation from the moment it is activated. *)
Theorem router_activation_keeps_old_time_limit
    (switch_id : UUID.t) (db : gmap Z KillSwitch.t) (ks : KillSwitch.t)
    (limit now : Datetime.t) :
  db !! switch_id = Some ks ->
  KillSwitch.auto_deactivate_at ks = Some limit ->
  Datetime.leb limit now = true ->
  exists ks',
    KillSwitchesApi.activate_kill_switch switch_id db = (<[switch_id := ks']> db, Ok ks')
    /\ KillSwitch.is_active ks' = true
    /\ KillSwitch.reason ks' = KillSwitch.reason ks
    /\ KillSwitch.auto_deactivate_at ks' = Some limit
    /\ KillSwitch.should_auto_deactivate ks' now = true.
Proof.
  intros Hks Hlimit Hpast. unfold KillSwitchesApi.activate_kill_switch. rewrite Hks.
  eexists. split; [reflexivity|].
  unfold KillSwitch.should_auto_deactivate. cbn. rewrite Hlimit. auto.
Qed.

Lemma router_activation_keeps_old_time_limit_witness :
  exists ks',
    KillSwitchesApi.activate_kill_switch 71 Examples.switches
    = (<[71 := ks']> Examples.switches, Ok ks')
    /\ KillSwitch.is_active ks' = true
    /\ KillSwitch.reason ks' = KillSwitch.reason Examples.expired_freeze
    /\ KillSwitch.auto_deactivate_at ks' = Some Examples.window_end
    /\ KillSwitch.should_auto_deactivate ks' Examples.after_window = true.
Proof.
  apply (router_activation_keeps_old_time_limit 71 Examples.switches
Examples.expired_freeze Examples.window_end Examples.after_window);
reflexivity.
Defined.

(** ** Break glass *)

Lemma datetime_gtb_leb (a b : Datetime.t) : Datetime.gtb a b = negb (Datetime.leb a b).
Proof. unfold Datetime.gtb, Datetime.leb. now destruct (Datetime.compare a b). Qed.

(** X19. A break-glass window that is active is approved and not expired,
    and no post-incident review is due for it yet; and a request that is
    expired, or for which a review is due, is not active. *)
Theorem active_break_glass_is_not_expired (bg : BreakGlass.t) (now : Datetime.t) :
  (BreakGlass.is_active bg now = true ->
   BreakGlass.status bg = BreakGlass.APPROVED
   /\ BreakGlass.is_expired bg now = false
   /\ BreakGlass.needs_post_incident_review bg now = false)
  /\ (BreakGlass.is_expired bg now = true -> BreakGlass.is_active bg now = false)
  /\ (BreakGlass.needs_post_incident_review bg now = true ->
      BreakGlass.is_active bg now = false).
Proof.
  assert (Hexcl : BreakGlass.is_active bg now = true -> BreakGlass.is_expired bg now = false).
  { unfold BreakGlass.is_active, BreakGlass.is_expired.
    destruct (negb _); [discriminate|].
    destruct (BreakGlass.valid_from bg) as [from_|]; [|discriminate].
    destruct (BreakGlass.valid_until bg) as [until_|]; [|discriminate].
    intros H. apply andb_true_iff in H. rewrite datetime_gtb_leb.
    destruct H as [_ ->]. reflexivity. }
  split; [|split].
  - intros Hact. split; [|split].
    + unfold BreakGlass.is_active in Hact.
      destruct (BreakGlass.status bg); try discriminate. reflexivity.
    + now apply Hexcl.
    + unfold BreakGlass.needs_post_incident_review. rewrite (Hexcl Hact).
      now rewrite andb_false_r.
  - intros Hexp. destruct (BreakGlass.is_active bg now) eqn:Hact; [|reflexivity].
    rewrite (Hexcl eq_refl) in Hexp. discriminate.
  - intros Hrev. destruct (BreakGlass.is_active bg now) eqn:Hact; [|reflexivity].
    unfold BreakGlass.needs_post_incident_review in Hrev.
    rewrite (Hexcl eq_refl), andb_false_r in Hrev. discriminate.
Qed.

(** X20. Denying or revoking closes a break-glass request for good as far
    as these checks go: afterwards it is active at no time and no
    post-incident review is ever due for it, whatever it was before; a
    revoked request counts as expired exactly at the times after the
    revocation. *)
Theorem denied_or_revoked_break_glass_is_closed
    (bg : BreakGlass.t) (who why : string) (revoked_at now : Datetime.t) :
  BreakGlass.is_active (BreakGlass.deny who why bg) now = false
  /\ BreakGlass.needs_post_incident_review (BreakGlass.deny who why bg) now = false
  /\ BreakGlass.is_active (BreakGlass.revoke who why revoked_at bg) now = false
  /\ BreakGlass.needs_post_incident_review (BreakGlass.revoke who why revoked_at bg) now
     = false
  /\ BreakGlass.is_expired (BreakGlass.revoke who why revoked_at bg) now
     = Datetime.gtb now revoked_at
  /\ BreakGlass.is_expired (BreakGlass.deny who why bg) now = BreakGlass.is_expired bg now.
Proof. repeat split. Qed.

(** X21. [approve] does not look at the status it finds: a request in any
    status, also one that was denied or revoked before, is APPROVED
    afterwards, and it is then active exactly at the times from the
    approval up to the approval time plus its [duration_hours]. *)
Theorem approve_opens_window_from_any_status
    (plus_hours : Datetime.t -> Z -> Datetime.t)
    (bg : BreakGlass.t) (who : string) (notes : option string) (approved_at now : Datetime.t) :
  BreakGlass.status (BreakGlass.approve plus_hours who notes approved_at bg)
  = BreakGlass.APPROVED
  /\ BreakGlass.is_active (BreakGlass.approve plus_hours who notes approved_at bg) now
     = Datetime.leb approved_at now
       && Datetime.leb now (plus_hours approved_at (BreakGlass.duration_hours bg))
  /\ BreakGlass.is_active
       (BreakGlass.approve plus_hours who notes approved_at
          (BreakGlass.revoke who "" approved_at (BreakGlass.deny who "" bg))) now
     = BreakGlass.is_active (BreakGlass.approve plus_hours who notes approved_at bg) now.
Proof. repeat split. Qed.

(** ** Equality of Python values *)

Lemma lookup_first (d : Py.dict) (k : string) (v : Py.json) :
  List.NoDup (map fst d) -> In (k, v) d -> Py.lookup k d = Some v.
Proof.
  induction d as [|[k' v'] rest IH]; intros Hnodup Hin; [destruct Hin|].
  inversion Hnodup as [|? ? Hfresh Hrest]; subst. cbn [Py.lookup].
  destruct Hin as [Heq | Hin].
  - injection Heq as -> ->. now rewrite String.eqb_refl.
  - destruct (String.eqb k' k) eqn:Hk; [|now apply IH].
    apply String.eqb_eq in Hk. subst k'. exfalso. apply Hfresh.
    change k with (fst (k, v)). now apply in_map.
Qed.

(** [v == v] for every well-formed value. *)
Lemma py_eq_refl : forall v, Py.well_formed v -> Py.eq v v = true.
Proof.
  fix IH 1. intros [| b | n | s | items | items] Hwf.
  - reflexivity.
  - now destruct b.
  - apply Z.eqb_refl.
  - apply String.eqb_refl.
  - cbn [Py.eq]. cbn [Py.well_formed] in Hwf.
    induction items as [|x rest IHrest]; [reflexivity|].
    destruct Hwf as [Hx Hrest]. rewrite (IH x Hx). cbn [andb]. now apply IHrest.
  - cbn [Py.eq]. rewrite Nat.eqb_refl. cbn [andb].
    cbn [Py.well_formed] in Hwf. destruct Hwf as [Hnodup Hall].
    match type of Hall with
    | ?wf_loop items =>
        match goal with
        | |- ?eq_loop items = true =>
            assert (Hloop : forall part,
                       (forall k v, In (k, v) part -> In (k, v) items) ->
                       wf_loop part -> eq_loop part = true)
        end
    end.
    { induction part as [|[k v] rest IHrest]; intros Hsub Hpart; [reflexivity|].
      destruct Hpart as [Hv Hrest].
      rewrite (lookup_first items k v Hnodup) by (apply Hsub; now left).
      rewrite (IH v Hv). cbn [andb]. apply IHrest; [|exact Hrest].
      intros k' v' Hin. apply Hsub. now right. }
    apply Hloop; auto.
Qed.

Lemma well_formed_dict_values (d : Py.dict) :
  Py.well_formed (Py.JDict d) ->
  forall key value, In (key, value) d -> Py.well_formed value.
Proof.
  induction d as [|[k v] rest IH]; intros Hwf key value Hin; [destruct Hin|].
  cbn [Py.well_formed map fst] in Hwf. destruct Hwf as [Hnodup [Hv Hrest]].
  destruct Hin as [Heq | Hin].
  - now injection Heq as <- <-.
  - apply (IH) with (key := key); [|exact Hin].
    cbn [Py.well_formed]. split; [now inversion Hnodup | exact Hrest].
Qed.

(** X22. A context that holds the policy's conditions themselves satisfies
    them: for a policy with a non-empty condition set of well-formed values,
    [evaluate_conditions] on a context in which every condition key has its
    expected value returns [True], whether or not an auto-deny entry
    matches. In particular the condition set, taken as a context, satisfies
    itself. *)
Theorem conditions_satisfied_by_themselves
    (p : ControlPolicy.t) (cs ad context : Py.dict) :
  ControlPolicy.conditions p = Some (Py.JDict cs) ->
  cs <> [] ->
  Py.well_formed (Py.JDict cs) ->
  ControlPolicy.auto_deny_entries p ad ->
  (forall key expected, In (key, expected) cs -> Py.lookup key context = Some expected) ->
  ControlPolicy.evaluate_conditions p context = Ok true
  /\ ControlPolicy.evaluate_conditions p cs = Ok true.
Proof.
  intros Hcs Hne Hwf Had Hctx.
  pose proof (well_formed_dict_values cs Hwf) as Hvalues.
  assert (Hholds : forall context',
             (forall key expected, In (key, expected) cs ->
                                   Py.lookup key context' = Some expected) ->
             ControlPolicy.conditions_hold context' cs = true).
  { intros context' Hctx'. apply conditions_hold_iff. intros key expected Hin.
    unfold Py.get. rewrite (Hctx' key expected Hin).
    apply py_eq_refl. now apply (Hvalues key expected). }
  rewrite !(evaluate_conditions_nonempty p _ cs ad Hcs Hne Had).
  rewrite (Hholds context Hctx).
  rewrite (Hholds cs).
  - now rewrite !orb_true_r.
  - intros key expected Hin. apply lookup_first; [|exact Hin].
    cbn [Py.well_formed] in Hwf. tauto.
Qed.

Lemma conditions_satisfied_by_themselves_witness :
  ControlPolicy.evaluate_conditions Examples.allow_in_prod Examples.prod_after_hours = Ok true
  /\ ControlPolicy.evaluate_conditions Examples.allow_in_prod [("env", Py.JStr "prod")]
     = Ok true.
Proof.
  apply (conditions_satisfied_by_themselves Examples.allow_in_prod
           [("env", Py.JStr "prod")] [] Examples.prod_after_hours).
  - reflexivity.
  - discriminate.
  - cbn. repeat constructor. intros [].
  - right. split; reflexivity.
  - intros key expected [Heq | []]. injection Heq as <- <-. reflexivity.
Defined.
